(** * skl_groups.divergences.knn: request resolution and execution pipeline

    A shallow embedding of [skl_groups/divergences/knn.py]: the spec parser
    ([_parse_specs], [add_func], [topological_sort]), the function
    specializer ([_set_up_funcs]) and the estimator life cycle
    ([_setup_args], [fit], [transform], [_get_rhos], [_finalize]).

    Python values are modelled as follows.
    - An exception is a value of [Exception]; a call that may raise returns
      a [Result].
    - A [dict] is an association list in insertion order with unique keys;
      a [set] is a duplicate-free list, and [set.pop()] removes the element
      picked by an arbitrary choice function.
    - Integers are [Z]; distances are real numbers ([R]).
    - The float type, the registry of estimators and the numeric back end
      (FLANN, the kernels of [_knn]) are parameters. *)

From Stdlib Require Import String Ascii List ZArith Bool Arith Lia.
From Stdlib Require Import Reals Lra.
From Stdlib Require Import DecimalString Permutation.
Import ListNotations.

Set Implicit Arguments.

(** ** Exceptions and results *)

Inductive Exception : Type :=
| ValueError (msg : string)
| TypeError (msg : string)
| AttributeError (msg : string)
| KeyError (msg : string)
| IndexError (msg : string)
| RecursionError.

Inductive Result (A : Type) : Type :=
| Ok (a : A)
| Raise (e : Exception).

Arguments Ok {A} a.
Arguments Raise {A} e.

Definition bind {A B : Type} (m : Result A) (k : A -> Result B) : Result B :=
  match m with
  | Ok a => k a
  | Raise e => Raise e
  end.

Notation "x <- m ;; k" := (bind m (fun x => k))
  (at level 61, m at next level, right associativity).
Notation "' p <- m ;; k" := (bind m (fun x => let p := x in k))
  (at level 61, p pattern, m at next level, right associativity).

(** [for x in xs: st = body(x, st)], stopping at the first exception. *)
Fixpoint for_each {A S : Type} (body : A -> S -> Result S) (xs : list A)
  (st : S) : Result S :=
  match xs with
  | [] => Ok st
  | x :: xs' => st' <- body x st ;; for_each body xs' st'
  end.

(** [[f(x) for x in xs]], stopping at the first exception. *)
Fixpoint map_result {A B : Type} (f : A -> Result B) (xs : list A)
  : Result (list B) :=
  match xs with
  | [] => Ok []
  | x :: xs' => y <- f x ;; ys <- map_result f xs' ;; Ok (y :: ys)
  end.

Definition is_ok {A : Type} (m : Result A) : bool :=
  match m with Ok _ => true | Raise _ => false end.

(** ** Strings *)

(** [str(n)] for an integer. *)
Definition str_of_Z (z : Z) : string :=
  NilZero.string_of_int (Z.to_int z).



(** [s.split(sep, 1)] for a one-character separator: the text before the
    first [sep] and, when there is one, the text after it. *)
Fixpoint split1 (sep : ascii) (s : string) : string * option string :=
  match s with
  | EmptyString => (EmptyString, None)
  | String c s' =>
      if Ascii.eqb c sep then (EmptyString, Some s')
      else let '(a, b) := split1 sep s' in (String c a, b)
  end.

(** ** Lists as Python lists, dicts and sets *)

(** [xs[i]] with Python's negative indices. *)
Definition py_index {A : Type} (xs : list A) (i : Z) : option A :=
  let n := Z.of_nat (length xs) in
  if (0 <=? i)%Z then nth_error xs (Z.to_nat i)
  else if (0 <=? n + i)%Z then nth_error xs (Z.to_nat (n + i))
  else None.

(** [xs[i] = v] for an index in range (no change otherwise). *)
Fixpoint list_set {A : Type} (xs : list A) (i : nat) (v : A) : list A :=
  match xs, i with
  | [], _ => []
  | _ :: xs', O => v :: xs'
  | x :: xs', S i' => x :: list_set xs' i' v
  end.

(** A [dict]: the items in insertion order. *)
Definition Dict (K V : Type) : Type := list (K * V).

Section Containers.

Context {K : Type} (K_eq_dec : forall a b : K, {a = b} + {a <> b}).

Definition mem (x : K) (s : list K) : bool :=
  if in_dec K_eq_dec x s then true else false.

(** [xs.index(x)] *)
Fixpoint index_of (x : K) (xs : list K) : option nat :=
  match xs with
  | [] => None
  | y :: xs' =>
      if K_eq_dec y x then Some O
      else option_map S (index_of x xs')
  end.

(** [s.add(x)] *)
Definition set_add (s : list K) (x : K) : list K :=
  if mem x s then s else s ++ [x].

(** [s.discard(x)] *)
Definition set_discard (x : K) (s : list K) : list K :=
  remove K_eq_dec x s.

Context {V : Type}.

(** [d.get(k)] *)
Fixpoint dict_get (k : K) (d : Dict K V) : option V :=
  match d with
  | [] => None
  | (k', v) :: d' => if K_eq_dec k' k then Some v else dict_get k d'
  end.

(** [d[k] = v]: an existing key keeps its place, a new one goes last. *)
Fixpoint dict_set (k : K) (v : V) (d : Dict K V) : Dict K V :=
  match d with
  | [] => [(k, v)]
  | (k', v') :: d' =>
      if K_eq_dec k' k then (k', v) :: d' else (k', v') :: dict_set k v d'
  end.

(** [del d[k]] *)
Definition dict_del (d : Dict K V) (k : K) : Dict K V :=
  filter (fun e => negb (if K_eq_dec (fst e) k then true else false)) d.

Definition dict_keys (d : Dict K V) : list K := map fst d.
Definition dict_values (d : Dict K V) : list V := map snd d.

End Containers.

(** ** [topological_sort] *)

Section TopologicalSort.

Context {N : Type} (N_eq_dec : forall a b : N, {a = b} + {a <> b}).

(** The element [set.pop()] removes: any one of them. *)
Variable choose : list N -> nat.

Definition is_nil {A : Type} (l : list A) : bool :=
  match l with [] => true | _ => false end.

(** [available.pop()] on a non-empty set. *)
Definition set_pop (available : list N) : option (N * list N) :=
  match available with
  | [] => None
  | x :: _ =>
      let n := nth (choose available mod length available) available x in
      Some (n, set_discard N_eq_dec n available)
  end.

Definition _move_available (deps : Dict N (list N))
  (available : list N) : Dict N (list N) * list N :=
  let to_delete := map fst (filter (fun e => is_nil (snd e)) deps) in
  (fold_left (dict_del N_eq_dec) to_delete deps,
   fold_left (set_add N_eq_dec) to_delete available).

(** The [while available:] loop; [fuel] bounds the number of iterations. *)
Fixpoint sort_loop (fuel : nat) (deps : Dict N (list N))
  (available order : list N)
  : option (Dict N (list N) * list N * list N) :=
  match set_pop available with
  | None => Some (deps, available, order)
  | Some (n, available') =>
      match fuel with
      | O => None
      | S fuel' =>
          let order' := order ++ [n] in
          let deps' :=
            map (fun e => (fst e, set_discard N_eq_dec n (snd e))) deps in
          let '(deps'', available'') := _move_available deps' available' in
          sort_loop fuel' deps'' available'' order'
      end
  end.

(** The loop with as many iterations as there are nodes. *)
Definition sort_run (deps : Dict N (list N))
  : option (Dict N (list N) * list N * list N) :=
  let '(deps0, available0) := _move_available deps [] in
  sort_loop (length deps0 + length available0) deps0 available0 [].

Definition topological_sort (deps : Dict N (list N))
  : Result (list N) :=
  match sort_run deps with
  | None => Raise RecursionError
  | Some (_, available, order) =>
      if negb (is_nil available)
      then Raise (ValueError "dependency cycle found")
      else Ok order
  end.

End TopologicalSort.

(** ** Floats and the estimator registry *)

(** Python's [float]: the values, [==] on them, [float(s)] on a string
    ([None] when it raises [ValueError]) and [str(a)].  [alpha_half] is the
    literal [0.5].  Equality is the one [list.index] uses; NaN, which is not
    equal to itself, is outside this model. *)
Record PyFloat : Type := {
  Alpha : Type;
  Alpha_eq_dec : forall a b : Alpha, {a = b} + {a <> b};
  float : string -> option Alpha;
  repr : Alpha -> string;
  alpha_half : Alpha
}.

(** The [alpha] field of a [MetaRequirement]: [None], a scalar, or a
    callable from the meta function's alpha(s) to the required ones
    (applied element by element). *)
Inductive ReqAlpha (A : Type) : Type :=
| AlphaNone
| AlphaConst (a : A)
| AlphaCallable (g : A -> A).

Arguments AlphaNone {A}.

(** [MetaRequirement = namedtuple('MetaRequirement',
    'func alpha needs_transpose')] *)
Record MetaRequirement (F A : Type) : Type := {
  req_func : F;
  req_alpha : ReqAlpha A;
  needs_transpose : bool
}.

(** The functions [func_mapping] can name and the attributes the pipeline
    reads off them.  [needs_results f = None] when [f] has no such
    attribute (a base estimator). *)
Record Registry (A : Type) : Type := {
  Func : Type;
  Func_eq_dec : forall f g : Func, {f = g} + {f <> g};
  needs_alpha : Func -> bool;
  needs_results : Func -> option (list (MetaRequirement Func A));
  needs_rhos : Func -> bool * bool;
  needs_all_ks : Func -> bool;
  has_chooser_fn : Func -> bool;
  returns_ks : Func -> bool;
  func_mapping : Dict string Func
}.

(** [_FuncInfo] and [_MetaFuncInfo] ([deps] stays empty for a base
    function).  [P] is the type of a slot: [option Z] while specs are being
    added ([None] is Python's [None]), [Z] once every slot is numbered. *)
Record FuncInfo (A P : Type) : Type := {
  alphas : option (list (option A));
  pos : list P;
  deps : list Z
}.

Section ParseSpecs.

Variable py : PyFloat.
Variable reg : Registry (Alpha py).

Abbreviation A := (Alpha py).
Abbreviation F := (Func reg).

(** What [set.pop()] picks in [topological_sort], and the depth Python
    lets [add_func] recurse to. *)
Variable choose : list F -> nat.
Variable recursion_limit : nat.

Definition is_meta (func : F) : bool :=
  match needs_results reg func with Some _ => true | None => false end.

Definition optA_eq_dec : forall a b : option A, {a = b} + {a <> b}.
Proof. decide equality. apply Alpha_eq_dec. Defined.

Definition optZ_eq_dec : forall a b : option Z, {a = b} + {a <> b}.
Proof. decide equality. apply Z.eq_dec. Defined.

(** The three dicts [_parse_specs] builds. *)
Record ParseState : Type := {
  funcs : Dict F (FuncInfo A (option Z));
  metas : Dict F (FuncInfo A (option Z));
  meta_deps : Dict F (list F)
}.

Definition get_d (is_m : bool) (st : ParseState)
  : Dict F (FuncInfo A (option Z)) :=
  if is_m then metas st else funcs st.

Definition set_d (is_m : bool) (st : ParseState)
  (d : Dict F (FuncInfo A (option Z))) : ParseState :=
  if is_m
  then {| funcs := funcs st; metas := d; meta_deps := meta_deps st |}
  else {| funcs := d; metas := metas st; meta_deps := meta_deps st |}.

(** [meta_deps[func].add(req_func); meta_deps[req_func]] on the
    [defaultdict(set)]. *)
Definition record_dep (func req_f : F) (st : ParseState) : ParseState :=
  let md := meta_deps st in
  let parents :=
    match dict_get (Func_eq_dec reg) func md with
    | Some s => s
    | None => []
    end in
  let md1 :=
    dict_set (Func_eq_dec reg) func
      (set_add (Func_eq_dec reg) parents req_f) md in
  let md2 :=
    match dict_get (Func_eq_dec reg) req_f md1 with
    | Some _ => md1
    | None => dict_set (Func_eq_dec reg) req_f [] md1
    end in
  {| funcs := funcs st; metas := metas st; meta_deps := md2 |}.

(** [req.alpha(alpha) if callable(req.alpha) else req.alpha] *)
Definition required_alpha (req : MetaRequirement F A) (alpha : option A)
  : option A :=
  match req_alpha req with
  | AlphaCallable g => option_map g alpha
  | AlphaConst a => Some a
  | AlphaNone => None
  end.

Definition str_of_alpha (alpha : option A) : string :=
  match alpha with
  | Some a => repr py a
  | None => "None"
  end.

Fixpoint add_func (fuel : nat) (func_name : string) (func : F)
  (alpha : option A) (pos0 : option Z) (st : ParseState)
  : Result ParseState :=
  match fuel with
  | O => Raise RecursionError
  | S fuel' =>
      let is_m := is_meta func in
      let d := get_d is_m st in
      match dict_get (Func_eq_dec reg) func d with
      | None =>
          let args :=
            if needs_alpha reg func
            then {| alphas := Some [alpha]; pos := [pos0]; deps := [] |}
            else {| alphas := None; pos := [pos0]; deps := [] |} in
          let st1 := set_d is_m st (dict_set (Func_eq_dec reg) func args d) in
          match needs_results reg func with
          | None => Ok st1
          | Some reqs =>
              for_each
                (fun req s =>
                   s' <- add_func fuel' func_name (req_func req)
                           (required_alpha req alpha) None s ;;
                   Ok (record_dep func (req_func req) s'))
                reqs st1
          end
      | Some info =>
          if negb (needs_alpha reg func) then
            match pos0 with
            | None => Ok st
            | Some _ =>
                if list_eq_dec optZ_eq_dec (pos info) [None]
                then Ok (set_d is_m st
                           (dict_set (Func_eq_dec reg) func
                              {| alphas := alphas info;
                                 pos := list_set (pos info) 0 pos0;
                                 deps := deps info |} d))
                else Raise (ValueError
                              (func_name ++ " passed more than once"))
            end
          else
            match alphas info with
            | None =>
                Raise (AttributeError
                         "'NoneType' object has no attribute 'index'")
            | Some al =>
                match index_of optA_eq_dec alpha al with
                | None =>
                    let info' :=
                      {| alphas := Some (al ++ [alpha]);
                         pos := pos info ++ [pos0];
                         deps := deps info |} in
                    let st1 :=
                      set_d is_m st
                        (dict_set (Func_eq_dec reg) func info' d) in
                    match needs_results reg func with
                    | None => Ok st1
                    | Some reqs =>
                        for_each
                          (fun req s =>
                             add_func fuel' func_name (req_func req)
                               (required_alpha req alpha) None s)
                          reqs st1
                    end
                | Some idx =>
                    match pos0 with
                    | None => Ok st
                    | Some _ =>
                        match nth_error (pos info) idx with
                        | Some None =>
                            Ok (set_d is_m st
                                  (dict_set (Func_eq_dec reg) func
                                     {| alphas := alphas info;
                                        pos := list_set (pos info) idx pos0;
                                        deps := deps info |} d))
                        | Some (Some _) =>
                            Raise (ValueError
                                     (func_name ++ " with alpha "
                                      ++ str_of_alpha alpha
                                      ++ " passed more than once"))
                        | None =>
                            Raise (IndexError "list index out of range")
                        end
                    end
                end
            end
      end
  end.

(** The body of the [for i, spec in enumerate(specs)] loop up to the call
    of [add_func]: split the token, convert the alpha, look the name up
    and compare the alpha's presence with [needs_alpha].  The message of
    the [ValueError] that [float] raises is Python 3's. *)
Definition parse_spec (spec : string) : Result (string * F * option A) :=
  let '(func_name, alpha_text) := split1 ":" spec in
  alpha <- match alpha_text with
           | None => Ok None
           | Some t =>
               match float py t with
               | Some a => Ok (Some a)
               | None =>
                   Raise (ValueError
                            ("could not convert string to float: '"
                             ++ t ++ "'"))
               end
           end ;;
  func <- match dict_get string_dec func_name (func_mapping reg) with
          | Some f => Ok f
          | None =>
              Raise (ValueError
                       ("'" ++ func_name ++ "' is not a known function type"))
          end ;;
  match needs_alpha reg func, alpha with
  | true, None =>
      Raise (ValueError
               (func_name ++ " needs alpha but not passed in spec '"
                ++ spec ++ "'"))
  | false, Some _ =>
      Raise (ValueError
               (func_name ++ " doesn't need alpha but is passed in spec '"
                ++ spec ++ "'"))
  | _, _ => Ok (func_name, func, alpha)
  end.

(** [for i, spec in enumerate(specs): ...; add_func(func, alpha, i)],
    from index [i] on. *)
Fixpoint add_specs (i : Z) (specs : list string) (st : ParseState)
  : Result ParseState :=
  match specs with
  | [] => Ok st
  | spec :: specs' =>
      '(func_name, func, alpha) <- parse_spec spec ;;
      st' <- add_func recursion_limit func_name func alpha (Some i) st ;;
      add_specs (i + 1) specs' st'
  end.

(** [for i, pos in enumerate(info.pos): if pos is None:
    info.pos[i] = next(meta_counter)]; [counter] is the value the next
    [next(meta_counter)] returns. *)
Fixpoint number_pos (ps : list (option Z)) (counter : Z) : list Z * Z :=
  match ps with
  | [] => ([], counter)
  | Some p :: ps' =>
      let '(r, c) := number_pos ps' counter in (p :: r, c)
  | None :: ps' =>
      let '(r, c) := number_pos ps' (counter - 1) in (counter :: r, c)
  end.

Fixpoint number_infos (d : Dict F (FuncInfo A (option Z))) (counter : Z)
  : Dict F (FuncInfo A Z) * Z :=
  match d with
  | [] => ([], counter)
  | (f, info) :: d' =>
      let '(ps, c) := number_pos (pos info) counter in
      let '(r, c') := number_infos d' c in
      ((f, {| alphas := alphas info; pos := ps; deps := deps info |}) :: r,
       c')
  end.

(** [np.asarray(req_info.pos)[req_info.alphas.index(a)]] *)
Definition pos_of_alpha (req_info : FuncInfo A Z) (a : option A)
  : Result Z :=
  match alphas req_info with
  | None =>
      Raise (AttributeError "'NoneType' object has no attribute 'index'")
  | Some al =>
      match index_of optA_eq_dec a al with
      | None => Raise (ValueError (str_of_alpha a ++ " is not in list"))
      | Some idx =>
          match nth_error (pos req_info) idx with
          | Some p => Ok p
          | None => Raise (IndexError "index out of bounds")
          end
      end
  end.

(** The slots one [MetaRequirement] of a meta function contributes to its
    [deps]. *)
Definition req_positions (fs ms : Dict F (FuncInfo A Z))
  (info : FuncInfo A Z) (req : MetaRequirement F A) : Result (list Z) :=
  let f := req_func req in
  req_info <- match dict_get (Func_eq_dec reg) f
                      (if is_meta f then ms else fs) with
              | Some i => Ok i
              | None => Raise (KeyError "required function")
              end ;;
  match req_alpha req with
  | AlphaNone =>
      match pos req_info with
      | [p] => Ok [p]
      | _ => Raise (ValueError "wrong number of values to unpack")
      end
  | AlphaConst a =>
      p <- pos_of_alpha req_info (Some a) ;; Ok [p]
  | AlphaCallable g =>
      match alphas info with
      | Some al => map_result (fun a => pos_of_alpha req_info (option_map g a)) al
      | None => p <- pos_of_alpha req_info None ;; Ok [p]
      end
  end.

Fixpoint concat_results (rs : list (Result (list Z))) : Result (list Z) :=
  match rs with
  | [] => Ok []
  | r :: rs' => a <- r ;; b <- concat_results rs' ;; Ok (a ++ b)
  end.

(** "fill in the dependencies for metas" for one meta function. *)
Definition fill_deps (fs ms : Dict F (FuncInfo A Z)) (func : F)
  (info : FuncInfo A Z) : Result (FuncInfo A Z) :=
  let reqs := match needs_results reg func with
              | Some l => l
              | None => []
              end in
  ds <- concat_results (map (req_positions fs ms info) reqs) ;;
  Ok {| alphas := alphas info; pos := pos info; deps := deps info ++ ds |}.

(** The value [_parse_specs] returns. *)
Record Plan : Type := {
  funcs_base : Dict F (FuncInfo A Z);
  metas_base : Dict F (FuncInfo A Z);
  n_meta_only : Z
}.

(** [OrderedDict((f, metas[f]) for f in meta_order
    if hasattr(f, 'needs_results'))] *)
Fixpoint order_metas (ms : Dict F (FuncInfo A Z)) (meta_order : list F)
  : Result (Dict F (FuncInfo A Z)) :=
  match meta_order with
  | [] => Ok []
  | f :: rest =>
      if is_meta f then
        match dict_get (Func_eq_dec reg) f ms with
        | Some info => r <- order_metas ms rest ;; Ok ((f, info) :: r)
        | None => Raise (KeyError "meta function")
        end
      else order_metas ms rest
  end.

Definition empty_state : ParseState :=
  {| funcs := []; metas := []; meta_deps := [] |}.

(** [_parse_specs(specs, Ks)]; [Ks] is not read by the body. *)
Definition _parse_specs (specs : list string) (Ks : list Z) : Result Plan :=
  st <- add_specs 0 specs empty_state ;;
  let '(fs, c1) := number_infos (funcs st) (-1) in
  let '(ms0, c2) := number_infos (metas st) c1 in
  ms <- map_result
          (fun e => info <- fill_deps fs ms0 (fst e) (snd e) ;;
                    Ok (fst e, info)) ms0 ;;
  meta_order <- topological_sort (Func_eq_dec reg) choose (meta_deps st) ;;
  metas_ordered <- order_metas ms meta_order ;;
  Ok {| funcs_base := fs; metas_base := metas_ordered;
        n_meta_only := - c2 - 1 |}.

End ParseSpecs.

Arguments ParseState {py} reg.
Arguments Plan {py} reg.
Arguments is_meta {py} reg func.
Arguments empty_state {py} reg.
Arguments parse_spec {py} reg spec.
Arguments add_specs {py} reg recursion_limit i specs st.
Arguments number_infos {py reg} d counter.
Arguments pos_of_alpha {py} req_info a.
Arguments fill_deps {py} reg fs ms func info.
Arguments req_positions {py} reg fs ms info req.
Arguments order_metas {py} reg ms meta_order.
Arguments _parse_specs {py} reg choose recursion_limit specs Ks.

(** ** The registry of [knn.py] *)

(** The functions [func_mapping] names. *)
Inductive KnnFunc : Type :=
| linear
| kl
| alpha_div
| bhattacharyya
| hellinger
| renyi
| tsallis
| l2
| jensen_shannon_core
| jensen_shannon.

Definition KnnFunc_eq_dec : forall f g : KnnFunc, {f = g} + {f <> g}.
Proof. decide equality. Defined.

Section KnnRegistry.

Variable py : PyFloat.

Definition knn_needs_alpha (f : KnnFunc) : bool :=
  match f with
  | alpha_div | renyi | tsallis => true
  | _ => false
  end.

(** [utils.identity] *)
Definition identity {T : Type} (x : T) : T := x.

Definition knn_needs_results (f : KnnFunc)
  : option (list (MetaRequirement KnnFunc (Alpha py))) :=
  match f with
  | bhattacharyya | hellinger =>
      Some [ {| req_func := alpha_div;
                req_alpha := AlphaConst (alpha_half py);
                needs_transpose := false |} ]
  | renyi | tsallis =>
      Some [ {| req_func := alpha_div;
                req_alpha := AlphaCallable identity;
                needs_transpose := false |} ]
  | l2 =>
      Some [ {| req_func := linear;
                req_alpha := AlphaNone;
                needs_transpose := true |} ]
  | jensen_shannon =>
      Some [ {| req_func := jensen_shannon_core;
                req_alpha := AlphaNone;
                needs_transpose := true |} ]
  | _ => None
  end.

Definition knn_needs_rhos (f : KnnFunc) : bool * bool :=
  match f with
  | l2 | jensen_shannon => (true, true)
  | _ => (false, false)
  end.

Definition knn_needs_all_ks (f : KnnFunc) : bool :=
  match f with
  | jensen_shannon_core => true
  | _ => false
  end.

Definition knn_has_chooser_fn (f : KnnFunc) : bool :=
  match f with
  | linear | alpha_div | jensen_shannon_core => true
  | _ => false
  end.

Definition knn_returns_ks (f : KnnFunc) : bool :=
  match f with
  | jensen_shannon_core => true
  | _ => false
  end.

Definition knn_func_mapping : Dict string KnnFunc :=
  [ ("linear", linear);
    ("kl", kl);
    ("alpha", alpha_div);
    ("bc", bhattacharyya);
    ("hellinger", hellinger);
    ("renyi", renyi);
    ("tsallis", tsallis);
    ("l2", l2);
    ("js-core", jensen_shannon_core);
    ("js", jensen_shannon);
    ("jensen-shannon", jensen_shannon) ]%string.

(** [kl] is imported from [_knn]; it is taken with the defaults the
    pipeline assumes for an attribute that is not set (no alpha, no
    requirements, no chooser). *)
Definition knn_registry : Registry (Alpha py) :=
  {| Func := KnnFunc;
     Func_eq_dec := KnnFunc_eq_dec;
     needs_alpha := knn_needs_alpha;
     needs_results := knn_needs_results;
     needs_rhos := knn_needs_rhos;
     needs_all_ks := knn_needs_all_ks;
     has_chooser_fn := knn_has_chooser_fn;
     returns_ks := knn_returns_ks;
     func_mapping := knn_func_mapping |}.

End KnnRegistry.

(** ** The estimator *)

(** A within-bag distance array: one row per point, one column per K. *)
Definition Rho : Type := list (list R).

(** What [transform] returns: the tensor with its direction axis, or the
    forward layer of every slot. *)
Inductive Output (S L : Type) : Type :=
| Sym (slots : list S)
| Fwd (slots : list L).

Arguments Sym {S L} slots.
Arguments Fwd {S L} slots.

Definition output_len {S L : Type} (o : Output S L) : nat :=
  match o with
  | Sym l => length l
  | Fwd l => length l
  end.

Definition has_direction_axis {S L : Type} (o : Output S L) : bool :=
  match o with
  | Sym _ => true
  | Fwd _ => false
  end.

(** [a.min()] and [a.max()] of a 1-d integer array. *)
Definition np_min (l : list Z) : Result Z :=
  match l with
  | [] => Raise (ValueError "zero-size array to reduction operation minimum which has no identity")
  | x :: t => Ok (fold_left Z.min t x)
  end.

Definition np_max (l : list Z) : Result Z :=
  match l with
  | [] => Raise (ValueError "zero-size array to reduction operation maximum which has no identity")
  | x :: t => Ok (fold_left Z.max t x)
  end.

(** [m[:, cols]] on a 2-d array. *)
Definition select_columns {T : Type} (cols : list Z) (m : list (list T))
  : Result (list (list T)) :=
  map_result
    (fun row =>
       map_result
         (fun c => match py_index row c with
                   | Some x => Ok x
                   | None => Raise (IndexError "index out of bounds")
                   end) cols) m.

(** The index [i] of a list of length [n], negative ones counted from the
    end. *)
Definition norm_index (n : nat) (i : Z) : option nat :=
  if (0 <=? i)%Z then
    if (i <? Z.of_nat n)%Z then Some (Z.to_nat i) else None
  else if (0 <=? Z.of_nat n + i)%Z then Some (Z.to_nat (Z.of_nat n + i))
  else None.

(** [outputs[pos, :, :, :] = r]: [r] has one slab per position, or a single
    one that is broadcast. *)
Definition assign_slots {T : Type} (outputs : list T) (ps : list Z)
  (r : list T) : Result (list T) :=
  vals <- (if Nat.eqb (length r) (length ps) then Ok r
           else match r with
                | [v] => Ok (repeat v (length ps))
                | _ => Raise (ValueError "shape mismatch")
                end) ;;
  for_each
    (fun pv out =>
       match norm_index (length out) (fst pv) with
       | Some i => Ok (list_set out i (snd pv))
       | None => Raise (IndexError "index out of bounds")
       end)
    (combine ps vals) outputs.

Section Estimator.

Variable py : PyFloat.
Variable reg : Registry (Alpha py).
Variable choose : list (Func reg) -> nat.
Variable recursion_limit : nat.

Abbreviation A := (Alpha py).
Abbreviation F := (Func reg).

(** What [replace_func] returns: [func] with its arguments bound, and the
    [k_needed] attribute when the chooser returns one. *)
Record Bound : Type := {
  bound_func : F;
  bound_alphas : option (list (option A));
  bound_Ks : list Z;
  bound_dim : Z;
  bound_ns : option (list Z * option (list Z));
  k_needed : option Z
}.

(** The collaborators outside [knn.py]: bags of points, FLANN, the
    choosers' arithmetic, the cross-divergence kernel of [_knn] and the
    numeric bodies of the meta estimators. *)
Record Backend : Type := {
  Point : Type;
  Index : Type;
  Flann : Type;
  Slab : Type;
  Layer : Type;
  feature_dim : list (list Point) -> Z;
  flann_parameters_ok : Flann -> bool;
  build_index : Flann -> list Point -> Index;
  nn_index : Index -> list Point -> Z -> list (list R);
  chooser : F -> option (list (option A)) -> list Z -> Z -> list Z ->
            option (list Z) -> Result Z;
  _estimate_cross_divs :
    list (list Point) -> list Index -> list Rho ->
    list (list Point) -> list Index -> option (list Rho) ->
    Dict Bound (FuncInfo A Z) -> list Z -> Z -> bool -> Z -> bool ->
    R -> bool -> Result (list Slab);
  call_meta : Bound -> option (list Rho) -> option (option (list Rho)) ->
              list Slab -> bool -> Result (list Slab);
  forward : Slab -> Layer
}.

Variable be : Backend.

Abbreviation Bag := (list (Point be)).

(** The attributes of a [KNNDivergenceEstimator]; an attribute that is not
    set is [None].  [plan_] holds [funcs_base_], [metas_base_],
    [n_meta_only_] and [save_all_Ks_], which are set together; [flann]
    stands for [n_jobs], [flann_algorithm] and [flann_args]; [log] is what
    [logger.warning] received. *)
Record Estimator : Type := {
  div_funcs : list string;
  Ks : list Z;
  do_sym : bool;
  clamp : bool;
  min_dist : R;
  flann : Flann be;
  plan_ : option (Plan reg * bool);
  features_ : option (list Bag);
  indices_ : option (list (Index be));
  rhos_ : option (list Rho);
  max_K_ : option Z;
  funcs_ : option (Dict Bound (FuncInfo A Z) * Dict Bound (FuncInfo A Z));
  log : list string
}.

Definition with_div_funcs (d : list string) (e : Estimator) : Estimator :=
  {| div_funcs := d; Ks := Ks e; do_sym := do_sym e; clamp := clamp e;
     min_dist := min_dist e; flann := flann e; plan_ := plan_ e;
     features_ := features_ e; indices_ := indices_ e; rhos_ := rhos_ e;
     max_K_ := max_K_ e; funcs_ := funcs_ e; log := log e |}.

Definition with_Ks (k : list Z) (e : Estimator) : Estimator :=
  {| div_funcs := div_funcs e; Ks := k; do_sym := do_sym e; clamp := clamp e;
     min_dist := min_dist e; flann := flann e; plan_ := plan_ e;
     features_ := features_ e; indices_ := indices_ e; rhos_ := rhos_ e;
     max_K_ := max_K_ e; funcs_ := funcs_ e; log := log e |}.

Definition with_plan (p : option (Plan reg * bool)) (e : Estimator)
  : Estimator :=
  {| div_funcs := div_funcs e; Ks := Ks e; do_sym := do_sym e;
     clamp := clamp e; min_dist := min_dist e; flann := flann e; plan_ := p;
     features_ := features_ e; indices_ := indices_ e; rhos_ := rhos_ e;
     max_K_ := max_K_ e; funcs_ := funcs_ e; log := log e |}.

Definition with_features (x : option (list Bag)) (e : Estimator)
  : Estimator :=
  {| div_funcs := div_funcs e; Ks := Ks e; do_sym := do_sym e;
     clamp := clamp e; min_dist := min_dist e; flann := flann e;
     plan_ := plan_ e; features_ := x; indices_ := indices_ e;
     rhos_ := rhos_ e; max_K_ := max_K_ e; funcs_ := funcs_ e;
     log := log e |}.

Definition with_indices (x : option (list (Index be))) (e : Estimator)
  : Estimator :=
  {| div_funcs := div_funcs e; Ks := Ks e; do_sym := do_sym e;
     clamp := clamp e; min_dist := min_dist e; flann := flann e;
     plan_ := plan_ e; features_ := features_ e; indices_ := x;
     rhos_ := rhos_ e; max_K_ := max_K_ e; funcs_ := funcs_ e;
     log := log e |}.

Definition with_rhos (x : option (list Rho)) (e : Estimator) : Estimator :=
  {| div_funcs := div_funcs e; Ks := Ks e; do_sym := do_sym e;
     clamp := clamp e; min_dist := min_dist e; flann := flann e;
     plan_ := plan_ e; features_ := features_ e; indices_ := indices_ e;
     rhos_ := x; max_K_ := max_K_ e; funcs_ := funcs_ e; log := log e |}.

Definition with_chosen
  (fm : Dict Bound (FuncInfo A Z) * Dict Bound (FuncInfo A Z)) (k : Z)
  (e : Estimator) : Estimator :=
  {| div_funcs := div_funcs e; Ks := Ks e; do_sym := do_sym e;
     clamp := clamp e; min_dist := min_dist e; flann := flann e;
     plan_ := plan_ e; features_ := features_ e; indices_ := indices_ e;
     rhos_ := rhos_ e; max_K_ := Some k; funcs_ := Some fm; log := log e |}.

Definition with_log (m : string) (e : Estimator) : Estimator :=
  {| div_funcs := div_funcs e; Ks := Ks e; do_sym := do_sym e;
     clamp := clamp e; min_dist := min_dist e; flann := flann e;
     plan_ := plan_ e; features_ := features_ e; indices_ := indices_ e;
     rhos_ := rhos_ e; max_K_ := max_K_ e; funcs_ := funcs_ e;
     log := log e ++ [m] |}.

(** [self.attr] for an attribute that may not be set. *)
Definition attr {T : Type} (name : string) (v : option T) : Result T :=
  match v with
  | Some x => Ok x
  | None =>
      Raise (AttributeError
               ("'KNNDivergenceEstimator' object has no attribute '"
                ++ name ++ "'"))
  end.

(** [X.n_pts] *)
Definition n_pts (X : list Bag) : list Z :=
  map (fun bag => Z.of_nat (length bag)) X.

(** [_setup_args].  [Ks] is a 1-d array in this model, so the check of
    [Ks.ndim] always passes. *)
Definition _setup_args (e : Estimator) : Result Estimator :=
  m <- np_min (Ks e) ;;
  if (m <? 1)%Z
  then Raise (ValueError ("Ks should be positive; got " ++ str_of_Z m))
  else
    e1 <- match plan_ e with
          | Some _ => Ok e
          | None =>
              p <- _parse_specs reg choose recursion_limit
                     (div_funcs e) (Ks e) ;;
              Ok (with_plan
                    (Some (p, existsb (needs_all_ks reg)
                                (dict_keys (funcs_base p)))) e)
          end ;;
    if flann_parameters_ok be (flann e1) then Ok e1
    else Raise (TypeError "flann_args contains an invalid argument").

(** [KNNDivergenceEstimator(div_funcs, Ks, do_sym, ..., min_dist, ...)] *)
Definition __init__ (d : list string) (k : list Z) (sym cl : bool)
  (md : R) (fl : Flann be) : Result Estimator :=
  _setup_args
    {| div_funcs := d; Ks := k; do_sym := sym; clamp := cl; min_dist := md;
       flann := fl; plan_ := None; features_ := None; indices_ := None;
       rhos_ := None; max_K_ := None; funcs_ := None; log := [] |}.

(** [replace_func] of [_set_up_funcs] *)
Definition replace_func (Ks0 : list Z) (dim : Z) (X_ns : list Z)
  (Y_ns : option (list Z)) (func : F) (info : FuncInfo A Z)
  : Result Bound :=
  let al := if needs_alpha reg func then alphas info else None in
  if has_chooser_fn reg func then
    k <- chooser be func al Ks0 dim X_ns Y_ns ;;
    Ok {| bound_func := func; bound_alphas := al; bound_Ks := Ks0;
          bound_dim := dim; bound_ns := Some (X_ns, Y_ns);
          k_needed := if needs_all_ks reg func && returns_ks reg func
                      then Some k else None |}
  else
    Ok {| bound_func := func; bound_alphas := al; bound_Ks := Ks0;
          bound_dim := dim; bound_ns := None; k_needed := None |}.

Definition _set_up_funcs (fs ms : Dict F (FuncInfo A Z)) (Ks0 : list Z)
  (dim : Z) (X_ns : list Z) (Y_ns : option (list Z))
  : Result (Dict Bound (FuncInfo A Z) * Dict Bound (FuncInfo A Z)) :=
  let rep := fun e : F * FuncInfo A Z =>
               b <- replace_func Ks0 dim X_ns Y_ns (fst e) (snd e) ;;
               Ok (b, snd e) in
  rep_funcs <- map_result rep fs ;;
  rep_metas_ordered <- map_result rep ms ;;
  Ok (rep_funcs, rep_metas_ordered).

Definition _choose_funcs (e : Estimator) (X : list Bag)
  (Y : option (list Bag)) : Result Estimator :=
  p <- attr "funcs_base_" (plan_ e) ;;
  fm <- _set_up_funcs (funcs_base (fst p)) (metas_base (fst p)) (Ks e)
          (feature_dim be X) (n_pts X) (option_map n_pts Y) ;;
  kmax <- np_max (Ks e) ;;
  let max_K0 := Z.max kmax (match max_K_ e with Some k => k | None => 0%Z end) in
  let max_K :=
    fold_left
      (fun m b => match k_needed b with
                  | Some k => Z.max m k
                  | None => m
                  end)
      (dict_keys (fst fm)) max_K0 in
  Ok (with_chosen fm max_K e).

(** ["asked for K = {}, but there's a bag with only {} points"
    .format(max_K, min_pt)] *)
Definition too_few_points (max_K min_pt : Z) : string :=
  ("asked for K = " ++ str_of_Z max_K ++ ", but there's a bag with only "
   ++ str_of_Z min_pt ++ " points")%string.

Definition _check_Ks (e : Estimator) (X : list Bag) (Y : option (list Bag))
  : Result unit :=
  xm <- np_min (n_pts X) ;;
  min_pt <- match Y with
            | None => Ok xm
            | Some y => ym <- np_min (n_pts y) ;; Ok (Z.min xm ym)
            end ;;
  max_K <- attr "max_K_" (max_K_ e) ;;
  if (max_K >=? min_pt)%Z
  then Raise (ValueError (too_few_points max_K min_pt))
  else Ok tt.

Definition _build_indices (e : Estimator) (X : list Bag)
  : list (Index be) :=
  map (build_index be (flann e)) X.

(** The rho array of one bag: the columns [which_Ks] of the distances to
    the [max_K_ + 1] nearest neighbours, square-rooted and clamped from
    below at [min_dist]. *)
Definition bag_rho (save_all : bool) (Ks0 : list Z) (md : R) (max_K : Z)
  (bag : Bag) (idx : Index be) : Result Rho :=
  let d := nn_index be idx bag (max_K + 1) in
  cols <- (if save_all then Ok (map (skipn 1) d)
           else select_columns Ks0 d) ;;
  Ok (map (map (fun x => Rmax md (sqrt x))) cols).

Definition _get_rhos (e : Estimator) (X : list Bag)
  (indices : list (Index be)) : Result (list Rho) :=
  _ <- _check_Ks e X None ;;
  p <- attr "save_all_Ks_" (plan_ e) ;;
  max_K <- attr "max_K_" (max_K_ e) ;;
  map_result
    (fun bi => bag_rho (snd p) (Ks e) (min_dist e) max_K (fst bi) (snd bi))
    (combine X indices).

Definition fit (e : Estimator) (X : list Bag) (skip_rhos : bool)
  : Result Estimator :=
  e1 <- _setup_args e ;;
  let e2 := with_features (Some X) e1 in
  e3 <- _choose_funcs e2 X None ;;
  _ <- _check_Ks e3 X None ;;
  let e4 := with_indices (Some (_build_indices e3 X)) e3 in
  if skip_rhos then Ok e4
  else
    r <- _get_rhos e4 X (_build_indices e3 X) ;;
    Ok (with_rhos (Some r) e4).

(** The positions in the set comprehension of [transform]:
    [{req_pos for f, info in metas_ for req_pos, req in
      zip(info.deps, f.needs_results) if req.needs_transpose}] *)
Definition transpose_positions (ms : Dict Bound (FuncInfo A Z)) : list Z :=
  flat_map
    (fun fi =>
       let reqs := match needs_results reg (bound_func (fst fi)) with
                   | Some l => l
                   | None => []
                   end in
       map fst
         (filter (fun pr => needs_transpose (snd pr))
            (combine (deps (snd fi)) reqs)))
    ms.

Definition max_K_warning (old_max_K max_K : Z) : string :=
  ("Fit with a lower max_K (" ++ str_of_Z old_max_K
   ++ ") than we actually need (" ++ str_of_Z max_K
   ++ "); recomputing rhos. This should only happen with Jensen-Shannon; "
   ++ "if it's taking a significant amount of time, pass skip_rhos=True "
   ++ "to fit() or set the max_K_ attribute to " ++ str_of_Z max_K
   ++ " to avoid the useless step.")%string.

(** What [transform] has in hand when it calls [_estimate_cross_divs]. *)
Record Prepared : Type := {
  p_est : Estimator;
  p_X : list Bag;
  p_do_sym : bool;
  p_X_indices : list (Index be);
  p_X_rhos : list Rho;
  p_Y_indices : list (Index be);
  p_Y_rhos : option (list Rho)
}.

(** [transform] up to the line "Getting divergences...". *)
Definition transform_prepare (e : Estimator) (Y : list Bag)
  : Result Prepared :=
  X <- attr "features_" (features_ e) ;;
  old_max_K <- attr "max_K_" (max_K_ e) ;;
  e1 <- _choose_funcs e X (Some Y) ;;
  _ <- _check_Ks e1 X (Some Y) ;;
  max_K <- attr "max_K_" (max_K_ e1) ;;
  let e2 :=
    match rhos_ e1 with
    | Some _ =>
        if (max_K >? old_max_K)%Z
        then with_rhos None (with_log (max_K_warning old_max_K max_K) e1)
        else e1
    | None => e1
    end in
  e3 <- match rhos_ e2 with
        | Some _ => Ok e2
        | None =>
            ix <- attr "indices_" (indices_ e2) ;;
            r <- _get_rhos e2 X ix ;;
            Ok (with_rhos (Some r) e2)
        end ;;
  fm <- attr "metas_" (funcs_ e3) ;;
  let sym := do_sym e3 || negb (is_nil (transpose_positions (snd fm))) in
  X_indices <- attr "indices_" (indices_ e3) ;;
  X_rhos <- attr "rhos_" (rhos_ e3) ;;
  let Y_indices := _build_indices e3 Y in
  Y_rhos <- (if sym then r <- _get_rhos e3 Y Y_indices ;; Ok (Some r)
             else Ok None) ;;
  Ok {| p_est := e3; p_X := X; p_do_sym := sym; p_X_indices := X_indices;
        p_X_rhos := X_rhos; p_Y_indices := Y_indices; p_Y_rhos := Y_rhos |}.

(** One turn of the loop over [self.metas_] in [_finalize]. *)
Definition run_meta (cl : bool) (X_rhos : list Rho)
  (Y_rhos : option (list Rho)) (fi : Bound * FuncInfo A Z)
  (outputs : list (Slab be)) : Result (list (Slab be)) :=
  let '(meta, info) := fi in
  required <- map_result
                (fun i => match py_index outputs i with
                          | Some s => Ok s
                          | None => Raise (IndexError "index out of bounds")
                          end) (deps info) ;;
  r <- call_meta be meta
         (if fst (needs_rhos reg (bound_func meta)) then Some X_rhos else None)
         (if snd (needs_rhos reg (bound_func meta)) then Some Y_rhos else None)
         required cl ;;
  assign_slots outputs (pos info) r.

Definition _finalize (e : Estimator) (outputs : list (Slab be))
  (X_rhos : list Rho) (Y_rhos : option (list Rho))
  : Result (Output (Slab be) (Layer be)) :=
  p <- attr "save_all_Ks_" (plan_ e) ;;
  rr <- (if snd p then
           let cols := map (fun k => (k - 1)%Z) (Ks e) in
           xr <- map_result (select_columns cols) X_rhos ;;
           yr <- match Y_rhos with
                 | None =>
                     Raise (TypeError "'NoneType' object is not iterable")
                 | Some y => map_result (select_columns cols) y
                 end ;;
           Ok (xr, Some yr)
         else Ok (X_rhos, Y_rhos)) ;;
  fm <- attr "metas_" (funcs_ e) ;;
  outputs1 <- for_each (run_meta (clamp e) (fst rr) (snd rr)) (snd fm)
                outputs ;;
  let n := n_meta_only (fst p) in
  let keep := fun T (l : list T) =>
                if (n =? 0)%Z then l
                else firstn (Z.to_nat (Z.of_nat (length l) - n)) l in
  if negb (do_sym e)
  then Ok (Fwd (keep _ (map (forward be) outputs1)))
  else Ok (Sym (keep _ outputs1)).

Definition transform (e : Estimator) (Y : list Bag)
  : Result (Estimator * Output (Slab be) (Layer be)) :=
  pr <- transform_prepare e Y ;;
  let e3 := p_est pr in
  p <- attr "n_meta_only_" (plan_ e3) ;;
  fm <- attr "funcs_" (funcs_ e3) ;;
  max_K <- attr "max_K_" (max_K_ e3) ;;
  outputs <- _estimate_cross_divs be (p_X pr) (p_X_indices pr) (p_X_rhos pr)
               Y (p_Y_indices pr) (p_Y_rhos pr) (fst fm) (Ks e3) max_K
               (snd p)
               (Z.of_nat (length (div_funcs e3)) + n_meta_only (fst p))
               (p_do_sym pr) (min_dist e3) (clamp e3) ;;
  out <- _finalize e3 outputs (p_X_rhos pr) (p_Y_rhos pr) ;;
  Ok (e3, out).

End Estimator.

Arguments Bound {py} reg.
Arguments Backend {py} reg.
Arguments Estimator {py reg} be.
Arguments Prepared {py reg} be.
Arguments n_pts {py reg be} X.
Arguments bag_rho {py reg} be save_all Ks0 md max_K bag idx.
Arguments run_meta {py reg} be cl X_rhos Y_rhos fi outputs.
Arguments __init__ {py reg} choose recursion_limit be d k sym cl md fl.
Arguments _setup_args {py reg} choose recursion_limit {be} e.
Arguments fit {py reg} choose recursion_limit {be} e X skip_rhos.

(** ** Concrete parameters for examples *)

(** Decimal literals [digits], [digits.digits], [.digits] and [digits.]
    with an optional minus sign, as exact fractions in lowest terms. *)
Definition digit_of (c : ascii) : option Z :=
  let n := nat_of_ascii c in
  if (48 <=? n)%nat && (n <=? 57)%nat then Some (Z.of_nat (n - 48)) else None.

Fixpoint digits_value (s : string) (acc : Z) : option Z :=
  match s with
  | EmptyString => Some acc
  | String c s' =>
      match digit_of c with
      | Some d => digits_value s' (10 * acc + d)%Z
      | None => None
      end
  end.

Definition reduce (n d : Z) : Z * Z :=
  let g := Z.gcd n d in (n / g, d / g)%Z.

Definition decimal_of_string (s : string) : option (Z * Z) :=
  let '(neg, body) :=
    match s with
    | String "-"%char r => (true, r)
    | _ => (false, s)
    end in
  let '(ip, fo) := split1 "." body in
  let fp := match fo with Some f => f | None => EmptyString end in
  if (String.length ip + String.length fp =? 0)%nat then None
  else
    match digits_value ip 0, digits_value fp 0 with
    | Some i, Some f =>
        let den := (10 ^ Z.of_nat (String.length fp))%Z in
        let num := (i * den + f)%Z in
        Some (reduce (if neg then - num else num) den)
    | _, _ => None
    end.

Fixpoint frac_digits (fuel : nat) (r den : Z) : string :=
  match fuel with
  | O => EmptyString
  | S fuel' =>
      if (r =? 0)%Z then EmptyString
      else String (ascii_of_nat (48 + Z.to_nat (r * 10 / den)))
             (frac_digits fuel' ((r * 10) mod den) den)
  end.

Definition decimal_repr (q : Z * Z) : string :=
  let '(n, d) := q in
  let a := Z.abs n in
  ((if (n <? 0)%Z then "-" else "") ++ str_of_Z (a / d) ++ "."
   ++ (if (a mod d =? 0)%Z then "0" else frac_digits 17 (a mod d) d))%string.

Definition ZZ_eq_dec : forall a b : Z * Z, {a = b} + {a <> b}.
Proof. decide equality; apply Z.eq_dec. Defined.

Definition decimal_float : PyFloat :=
  {| Alpha := Z * Z;
     Alpha_eq_dec := ZZ_eq_dec;
     float := decimal_of_string;
     repr := decimal_repr;
     alpha_half := (1, 2)%Z |}.

(** [set.pop()] taking the first element. *)
Definition pop_first {T : Type} (_ : list T) : nat := O.

(** Two meta functions that require each other. *)
Inductive PingPong : Type := ping | pong.

Definition PingPong_eq_dec : forall f g : PingPong, {f = g} + {f <> g}.
Proof. decide equality. Defined.

Definition ping_pong_registry : Registry (Alpha decimal_float) :=
  {| Func := PingPong;
     Func_eq_dec := PingPong_eq_dec;
     needs_alpha := fun _ => false;
     needs_results := fun f =>
       Some [ {| req_func := match f with ping => pong | pong => ping end;
                 req_alpha := AlphaNone;
                 needs_transpose := false |} ];
     needs_rhos := fun _ => (false, false);
     needs_all_ks := fun _ => false;
     has_chooser_fn := fun _ => false;
     returns_ks := fun _ => false;
     func_mapping := [("ping", ping); ("pong", pong)]%string |}.

(** The choosers' floating-point arithmetic is outside this model.  For
    the examples, this stands for [_get_jensen_shannon_core] on the
    inputs they use: bags of one common size give every weight the value
    1, hence [max_i = Ks.max()]; with [Ks = (4,)] and one bag of 10
    points, a bag of 7 points gives the largest weight 19/16, hence
    [max_i = ceil(4.75) = 5], and a bag of 5 points gives 19/14, hence
    [max_i = ceil(5.43) = 6]. *)
Definition example_chooser (Ks0 : list Z) (Y_ns : option (list Z))
  : Result Z :=
  max_K <- np_max Ks0 ;;
  match Y_ns with
  | Some [7%Z] => Ok (max_K + 1)%Z
  | Some [5%Z] => Ok (max_K + 2)%Z
  | _ => Ok max_K
  end.

Fixpoint insert_sorted (x : Z) (l : list Z) : list Z :=
  match l with
  | [] => [x]
  | y :: t => if (x <=? y)%Z then x :: l else y :: insert_sorted x t
  end.

(** Bags of points on a line, exhaustive neighbour search, and kernels
    that only count: a slab is the number of estimators applied to get
    it. *)
Definition line_backend {py : PyFloat} (reg : Registry (Alpha py))
  : Backend reg :=
  {| Point := Z;
     Index := list Z;
     Flann := unit;
     Slab := Z;
     Layer := Z;
     feature_dim := fun _ => 1%Z;
     flann_parameters_ok := fun _ => true;
     build_index := fun _ bag => bag;
     nn_index := fun idx bag k =>
       map (fun x =>
              map IZR
                (firstn (Z.to_nat k)
                   (fold_right insert_sorted []
                      (map (fun y => ((x - y) * (x - y))%Z) idx))))
           bag;
     chooser := fun f _ Ks0 _ _ Y_ns =>
       if needs_all_ks reg f then example_chooser Ks0 Y_ns else Ok 0%Z;
     _estimate_cross_divs :=
       fun _ _ _ _ _ _ _ _ _ _ n_output _ _ _ =>
         Ok (repeat 0%Z (Z.to_nat n_output));
     call_meta := fun _ _ _ required _ => Ok (map Z.succ required);
     forward := fun s => s |}.

(** ** Properties the theorems speak of *)

(** A row whose entries do not decrease from left to right. *)
Definition nondecreasing (row : list R) : Prop :=
  forall i j a b, (i <= j)%nat ->
    nth_error row i = Some a -> nth_error row j = Some b -> (a <= b)%R.

(** A row with one entry per requested K whose entries do not decrease
    as K grows. *)
Definition ordered_by_K (Ks0 : list Z) (row : list R) : Prop :=
  forall i j ki kj a b,
    nth_error Ks0 i = Some ki -> nth_error Ks0 j = Some kj ->
    (ki <= kj)%Z ->
    nth_error row i = Some a -> nth_error row j = Some b -> (a <= b)%R.

(** A list of K values that does not decrease from left to right. *)
Definition ascending (Ks0 : list Z) : Prop :=
  forall i j a b, (i <= j)%nat ->
    nth_error Ks0 i = Some a -> nth_error Ks0 j = Some b -> (a <= b)%Z.

(** An entry of a rho array, from the squared distance the index
    returned. *)
Definition clamp_dist (md x : R) : R := Rmax md (sqrt x).

(** The estimator of the examples: the registry of [knn.py] with decimal
    alphas, on the line. *)
Definition knn : Registry (Alpha decimal_float) := knn_registry decimal_float.

Definition new_estimator (d : list string) (k : list Z) (sym : bool)
  : Result (Estimator (line_backend knn)) :=
  __init__ pop_first 1000 (line_backend knn) d k sym true (1 / 1000)%R tt.

Fixpoint Z_nondecreasingb (l : list Z) : bool :=
  match l with
  | [] => true
  | x :: t =>
      match t with
      | [] => true
      | y :: _ => (x <=? y)%Z && Z_nondecreasingb t
      end
  end.

(** One bag of three points on the line, and its index. *)
Definition line_012 : list (list Z) := [[0; 1; 2]%Z].

Section EffectiveMaxK.

Context {py : PyFloat} {reg : Registry (Alpha py)} {be : Backend reg}.

(** The K values [_choose_funcs] takes the maximum of: [Ks.max()], the
    [max_K_] an earlier [fit] or [transform] left on the estimator (0 when
    there is none) and the [k_needed] of the specialized base
    functions. *)
Definition required_Ks (e : Estimator be)
  (fs : Dict (Bound reg) (FuncInfo (Alpha py) Z)) (kmax : Z) : list Z :=
  kmax
  :: (match max_K_ e with Some k => k | None => 0%Z end)
  :: flat_map (fun b => match k_needed b with
                        | Some k => [k]
                        | None => []
                        end) (dict_keys fs).

Definition is_maximum (m : Z) (l : list Z) : Prop :=
  In m l /\ Forall (fun k => (k <= m)%Z) l.

(** [transform]'s estimator after the comparison of the new max K with
    the one the estimator had. *)
Definition after_growth (e1 : Estimator be) (old max_K : Z) : Estimator be :=
  match rhos_ e1 with
  | Some _ =>
      if (max_K >? old)%Z
      then with_rhos None (with_log (max_K_warning old max_K) e1)
      else e1
  | None => e1
  end.

End EffectiveMaxK.

(** Two bags, of three and of two points. *)
Definition line_3_2 : list (list Z) := [[0; 1; 2]%Z; [0; 1]%Z].

(** A bag of ten points, one of seven and one of five. *)
Definition line_10 : list (list Z) := [[0; 1; 2; 3; 4; 5; 6; 7; 8; 9]%Z].

(** The value of a call that returns, [d] otherwise. *)
Definition or_else {A : Type} (m : Result A) (d : A) : A :=
  match m with Ok a => a | Raise _ => d end.

Definition blank_estimator : Estimator (line_backend knn) :=
  @Build_Estimator _ _ (line_backend knn) [] [] false true 0%R tt
    None None None None None None [].



(** A bag whose points lie ten apart. *)
Definition line_far : list (list Z) := [[0; 10; 20]%Z].

(** [KNNDivergenceEstimator(div_funcs=('kl',), Ks=(1,))] fitted on
    [line_012]; then fitted again on [line_far], with and without
    [skip_rhos]; and fitted again after [div_funcs] was set to
    [('linear',)]. *)
Definition kl_fitted : Estimator (line_backend knn) :=
  Eval cbn in
  or_else (e0 <- new_estimator ["kl"%string] [1%Z] false ;;
           fit pop_first 1000 e0 line_012 false) blank_estimator.

Definition kl_refitted_skip : Estimator (line_backend knn) :=
  Eval cbn in
  or_else (fit pop_first 1000 kl_fitted line_far true) blank_estimator.

Definition kl_refitted : Estimator (line_backend knn) :=
  Eval cbn in
  or_else (fit pop_first 1000 kl_fitted line_far false) blank_estimator.

Definition kl_respecified : Estimator (line_backend knn) :=
  Eval cbn in
  or_else (fit pop_first 1000
             (with_div_funcs ["linear"%string] kl_fitted) line_012 false)
    blank_estimator.

(** [KNNDivergenceEstimator(div_funcs=('js-core',), Ks=(4,))] fitted on
    the bag of ten points. *)
Definition js_core_fitted : Estimator (line_backend knn) :=
  Eval cbn in
  or_else (e0 <- new_estimator ["js-core"%string] [4%Z] false ;;
           fit pop_first 1000 e0 line_10 false) blank_estimator.

(** [KNNDivergenceEstimator(div_funcs=('l2',), Ks=(1,), do_sym=False)]
    fitted on [line_012], its plan, and what [transform] has prepared for
    [line_012] when it starts on the divergences. *)
Definition l2_fitted : Estimator (line_backend knn) :=
  Eval cbn in
  or_else (e0 <- new_estimator ["l2"%string] [1%Z] false ;;
           fit pop_first 1000 e0 line_012 false) blank_estimator.

Definition l2_plan : Plan knn :=
  Eval cbn in
  or_else (_parse_specs knn pop_first 1000 ["l2"%string] [1%Z])
    {| funcs_base := []; metas_base := []; n_meta_only := 0 |}.

Definition blank_prepared : Prepared (line_backend knn) :=
  {| p_est := blank_estimator; p_X := []; p_do_sym := false;
     p_X_indices := []; p_X_rhos := []; p_Y_indices := [];
     p_Y_rhos := None |}.

Definition l2_prepared : Prepared (line_backend knn) :=
  Eval cbn in
  or_else (transform_prepare l2_fitted line_012) blank_prepared.

Definition l2_funcs
  : Dict (Bound knn) (FuncInfo (Alpha decimal_float) Z)
    * Dict (Bound knn) (FuncInfo (Alpha decimal_float) Z) :=
  Eval cbn in
  match funcs_ (p_est l2_prepared) with Some fm => fm | None => ([], []) end.

Definition l2_meta_info
  : Bound knn * FuncInfo (Alpha decimal_float) Z :=
  Eval cbn in
  match snd l2_funcs with
  | fi :: _ => fi
  | [] => ({| bound_func := l2 : Func knn; bound_alphas := None;
              bound_Ks := []; bound_dim := 0; bound_ns := None;
              k_needed := None |},
           {| alphas := None; pos := []; deps := [] |})
  end.

(** * Proofs *)

(** ** Results and lists *)

Lemma bind_ok {A B : Type} (m : Result A) (k : A -> Result B) (b : B) :
  bind m k = Ok b -> exists a, m = Ok a /\ k a = Ok b.
Proof. destruct m; simpl; intros H; [eauto | discriminate]. Qed.

Lemma map_result_ok {A B : Type} (f : A -> Result B) xs ys :
  map_result f xs = Ok ys -> Forall2 (fun x y => f x = Ok y) xs ys.
Proof.
  revert ys; induction xs as [|x xs IH]; simpl; intros ys H.
  - inversion H; constructor.
  - apply bind_ok in H as (y & Hy & H).
    apply bind_ok in H as (ys' & Hys & H).
    inversion H; subst. constructor; auto.
Qed.

Lemma Forall2_ok_map_result {A B : Type} (f : A -> Result B) xs ys :
  Forall2 (fun x y => f x = Ok y) xs ys -> map_result f xs = Ok ys.
Proof.
  induction 1 as [|x y xs ys Hxy _ IH]; simpl; auto.
  rewrite Hxy, IH. reflexivity.
Qed.

Lemma Forall2_in_r {A B : Type} (P : A -> B -> Prop) xs ys y :
  Forall2 P xs ys -> In y ys -> exists x, In x xs /\ P x y.
Proof.
  induction 1 as [|x0 y0 xs ys Hxy _ IH]; simpl; intros Hin; [contradiction|].
  destruct Hin as [->|Hin]; [eauto|].
  destruct (IH Hin) as (x1 & ? & ?); eauto.
Qed.

Lemma Forall2_nth_error_r {A B : Type} (P : A -> B -> Prop) xs ys i y :
  Forall2 P xs ys -> nth_error ys i = Some y ->
  exists x, nth_error xs i = Some x /\ P x y.
Proof.
  intros H; revert i; induction H; intros [|i]; simpl; intros E;
    try discriminate.
  - inversion E; subst; eauto.
  - eauto.
Qed.

Lemma py_index_nonneg {T : Type} (l : list T) k :
  (0 <= k)%Z -> py_index l k = nth_error l (Z.to_nat k).
Proof.
  intros H. unfold py_index. destruct (0 <=? k)%Z eqn:E; [reflexivity|].
  apply Z.leb_gt in E; lia.
Qed.

Lemma bind_raise {A B : Type} (m : Result A) (k : A -> Result B) err :
  bind m k = Raise err ->
  m = Raise err \/ exists a, m = Ok a /\ k a = Raise err.
Proof. destruct m; simpl; intros H; [right; eauto | left; inversion H; reflexivity]. Qed.

(** ** Within-bag distances: [_get_rhos] *)

Lemma clamp_dist_floor md x : (md <= clamp_dist md x)%R.
Proof. apply Rmax_l. Qed.

Lemma clamp_dist_mono md x y :
  (x <= y)%R -> (clamp_dist md x <= clamp_dist md y)%R.
Proof.
  intros H. unfold clamp_dist.
  apply Rle_max_compat_l.
  destruct (Rle_dec 0 x) as [Hx|Hx].
  - apply sqrt_le_1_alt; assumption.
  - unfold sqrt at 1. destruct (Rcase_abs x) as [_|Hge].
    + apply sqrt_pos.
    + exfalso; apply Hx; apply Rge_le; assumption.
Qed.

Lemma nondecreasing_skipn n row :
  nondecreasing row -> nondecreasing (skipn n row).
Proof.
  intros H i j a b Hij Ha Hb.
  rewrite nth_error_skipn in Ha, Hb.
  apply (H (n + i)%nat (n + j)%nat); auto; lia.
Qed.

Lemma nondecreasing_map_clamp md row :
  nondecreasing row -> nondecreasing (map (clamp_dist md) row).
Proof.
  intros H i j a b Hij Ha Hb.
  rewrite nth_error_map in Ha, Hb.
  destruct (nth_error row i) eqn:Ei; [|discriminate].
  destruct (nth_error row j) eqn:Ej; [|discriminate].
  simpl in *. inversion Ha; inversion Hb; subst.
  apply clamp_dist_mono. eapply H; eauto.
Qed.

Lemma Z_nondecreasingb_nth l :
  Z_nondecreasingb l = true ->
  forall i j a b, (i <= j)%nat ->
    nth_error l i = Some a -> nth_error l j = Some b -> (a <= b)%Z.
Proof.
  induction l as [|x t IH]; intros H i j a b Hij Ha Hb.
  - destruct i; discriminate.
  - assert (Ht : Z_nondecreasingb t = true).
    { simpl in H. destruct t; [reflexivity|].
      apply andb_prop in H; tauto. }
    assert (Hhd : forall n c, nth_error t n = Some c -> (x <= c)%Z).
    { intros n. induction n as [|n IHn]; intros c Hc.
      - destruct t as [|y t']; [discriminate|]. simpl in Hc, H.
        inversion Hc; subst. apply andb_prop in H as [H _].
        apply Z.leb_le; assumption.
      - destruct t as [|y t']; [discriminate|].
        assert (Hy : (x <= y)%Z).
        { simpl in H. apply andb_prop in H as [H _].
          apply Z.leb_le; assumption. }
        pose proof (IH Ht 0%nat (S n) y c (Nat.le_0_l _) eq_refl Hc).
        lia. }
    destruct i as [|i], j as [|j]; simpl in Ha, Hb.
    + inversion Ha; inversion Hb; subst; lia.
    + inversion Ha; subst. eauto.
    + lia.
    + apply (IH Ht i j a b); auto. lia.
Qed.

Lemma nondecreasing_IZR l :
  Z_nondecreasingb l = true -> nondecreasing (map IZR l).
Proof.
  intros H i j a b Hij Ha Hb.
  rewrite nth_error_map in Ha, Hb.
  destruct (nth_error l i) eqn:Ei; [|discriminate].
  destruct (nth_error l j) eqn:Ej; [|discriminate].
  simpl in *. inversion Ha; inversion Hb; subst.
  apply IZR_le. eapply Z_nondecreasingb_nth; eauto.
Qed.

Section Rho.

Context {py : PyFloat} {reg : Registry (Alpha py)} (be : Backend reg).

(** Each row of a rho array, read off the row the index returned. *)
Lemma bag_rho_shape save_all Ks0 md max_K bag idx rho :
  bag_rho be save_all Ks0 md max_K bag idx = Ok rho ->
  Forall2
    (fun drow row =>
       if save_all then row = map (clamp_dist md) (skipn 1 drow)
       else Forall2 (fun k x => exists d, py_index drow k = Some d
                                          /\ x = clamp_dist md d) Ks0 row)
    (nn_index be idx bag (max_K + 1)) rho.
Proof.
  unfold bag_rho. intros H.
  apply bind_ok in H as (cols & Hc & H). inversion H; subst; clear H.
  destruct save_all.
  - inversion Hc; subst; clear Hc.
    induction (nn_index be idx bag (max_K + 1)); simpl; constructor; auto.
  - apply map_result_ok in Hc.
    induction Hc as [|drow row ds rs Hrow _ IH]; simpl; constructor; auto.
    apply map_result_ok in Hrow. clear - Hrow.
    induction Hrow as [|k x ks xs Hk _ IH]; simpl; constructor; auto.
    destruct (py_index drow k) eqn:E; inversion Hk; subst. eauto.
Qed.


Lemma get_rhos_bags (e : Estimator be) X indices rhos :
  _get_rhos e X indices = Ok rhos ->
  exists p max_K, plan_ e = Some p /\ max_K_ e = Some max_K /\
    Forall2 (fun bi rho =>
               bag_rho be (snd p) (Ks e) (min_dist e) max_K (fst bi) (snd bi)
               = Ok rho) (combine X indices) rhos.
Proof.
  unfold _get_rhos. intros H.
  apply bind_ok in H as (_ & _ & H).
  apply bind_ok in H as (p & Hp & H).
  apply bind_ok in H as (k & Hk & H).
  exists p, k. unfold attr in *.
  destruct (plan_ e); [|discriminate]. destruct (max_K_ e); [|discriminate].
  inversion Hp; inversion Hk; subst. repeat split; auto.
  apply map_result_ok; assumption.
Qed.

(** C8, as the code has it: every entry of every rho array [_get_rhos]
    returns is at least [min_dist]; unless all ranks are kept, a row has
    exactly one entry per requested K, in the order of [Ks]; and when the
    K values are at least 1 and the index returns each point's distances
    in rank order, the entry of a smaller K is never larger than that of a
    larger K (a row that keeps all ranks is non-decreasing), every entry
    is the clamped distance of a column other than the self-match column
    0, and a row is non-decreasing from left to right whenever [Ks] is
    ascending. *)
Theorem rhos_floor_and_order (e : Estimator be) X indices rhos :
  _get_rhos e X indices = Ok rhos ->
  (forall rho row x, In rho rhos -> In row rho -> In x row ->
     (min_dist e <= x)%R) /\
  (forall rho row, In rho rhos -> In row rho ->
     match plan_ e with
     | Some (_, true) => True
     | _ => length row = length (Ks e)
     end) /\
  (Forall (fun k => (1 <= k)%Z) (Ks e) ->
   (forall bag idx max_K,
      max_K_ e = Some max_K -> In (bag, idx) (combine X indices) ->
      Forall nondecreasing (nn_index be idx bag (max_K + 1))) ->
   forall rho row, In rho rhos -> In row rho ->
     (match plan_ e with
      | Some (_, true) => nondecreasing row
      | _ => ordered_by_K (Ks e) row
      end) /\
     (forall x, In x row ->
        exists bag idx max_K drow c d,
          max_K_ e = Some max_K /\
          In (bag, idx) (combine X indices) /\
          In drow (nn_index be idx bag (max_K + 1)) /\
          (1 <= c)%nat /\ nth_error drow c = Some d /\
          x = clamp_dist (min_dist e) d) /\
     (ascending (Ks e) -> nondecreasing row)).
Proof.
  intros H. apply get_rhos_bags in H as (p & max_K & Hp & Hk & H).
  split; [|split].
  - intros rho row x Hrho Hrow Hx.
    destruct (Forall2_in_r _ H Hrho) as (bi & _ & Hb).
    apply bag_rho_shape in Hb.
    destruct (Forall2_in_r _ Hb Hrow) as (drow & _ & Hd).
    destruct (snd p).
    + subst row. apply in_map_iff in Hx as (d & <- & _).
      apply clamp_dist_floor.
    + destruct (Forall2_in_r _ Hd Hx) as (k & _ & d & _ & ->).
      apply clamp_dist_floor.
  - intros rho row Hrho Hrow.
    destruct (Forall2_in_r _ H Hrho) as (bi & _ & Hb).
    apply bag_rho_shape in Hb.
    destruct (Forall2_in_r _ Hb Hrow) as (drow & _ & Hd).
    rewrite Hp. destruct p as [pl sa]; cbn [fst snd] in *.
    destruct sa; [exact I|].
    symmetry. eapply Forall2_length; eassumption.
  - intros HKs Hsorted rho row Hrho Hrow.
    destruct (Forall2_in_r _ H Hrho) as ([bag idx] & Hbi & Hb).
    apply bag_rho_shape in Hb. cbn [fst snd] in Hb.
    destruct (Forall2_in_r _ Hb Hrow) as (drow & Hdrow & Hd).
    pose proof (Hsorted bag idx max_K Hk Hbi) as Hs.
    rewrite Forall_forall in Hs. specialize (Hs drow Hdrow).
    rewrite Hp. destruct p as [pl sa]; cbn [fst snd] in *. destruct sa.
    + subst row.
      assert (Hnd : nondecreasing
                      (map (clamp_dist (min_dist e)) (skipn 1 drow)))
        by (apply nondecreasing_map_clamp, nondecreasing_skipn; assumption).
      split; [exact Hnd|]. split; [|intros _; exact Hnd].
      intros x Hx. apply in_map_iff in Hx as (d & <- & Hin).
      apply In_nth_error in Hin as (c & Hc).
      rewrite nth_error_skipn in Hc.
      exists bag, idx, max_K, drow, (1 + c)%nat, d.
      repeat split; auto; lia.
    + assert (Hord : ordered_by_K (Ks e) row).
      { intros i j ki kj a b Hi Hj Hle Ha Hb'.
        destruct (Forall2_nth_error_r _ Hd Ha)
          as (ki' & Hi' & da & Hda & ->).
        destruct (Forall2_nth_error_r _ Hd Hb')
          as (kj' & Hj' & db & Hdb & ->).
        rewrite Hi in Hi'; rewrite Hj in Hj'.
        inversion Hi'; inversion Hj'; subst.
        rewrite Forall_forall in HKs.
        pose proof (HKs _ (nth_error_In _ _ Hi)).
        pose proof (HKs _ (nth_error_In _ _ Hj)).
        rewrite py_index_nonneg in Hda, Hdb by lia.
        apply clamp_dist_mono.
        eapply (Hs (Z.to_nat ki') (Z.to_nat kj')); eauto; lia. }
      split; [exact Hord|]. split.
      * intros x Hx.
        destruct (Forall2_in_r _ Hd Hx) as (k & Hk' & d & Hdk & ->).
        rewrite Forall_forall in HKs. pose proof (HKs _ Hk').
        rewrite py_index_nonneg in Hdk by lia.
        exists bag, idx, max_K, drow, (Z.to_nat k), d.
        repeat split; auto; lia.
      * intros Hasc i j a b Hij Ha Hb'.
        destruct (Forall2_nth_error_r _ Hd Ha) as (ki & Hi & _).
        destruct (Forall2_nth_error_r _ Hd Hb') as (kj & Hj & _).
        apply (Hord i j ki kj a b); auto.
        apply (Hasc i j ki kj); auto.
Qed.

End Rho.

Lemma line_012_sorted k :
  Forall nondecreasing
    (nn_index (line_backend knn) [0; 1; 2]%Z [0; 1; 2]%Z (Z.of_nat k)).
Proof.
  change (Forall nondecreasing
            (map (fun l => map IZR (firstn (Z.to_nat (Z.of_nat k)) l))
               [[0; 1; 4]%Z; [0; 1; 1]%Z; [0; 1; 4]%Z])).
  rewrite Nat2Z.id.
  apply Forall_cons;
    [|apply Forall_cons; [|apply Forall_cons; [|apply Forall_nil]]];
    apply nondecreasing_IZR; destruct k as [|[|[|[|k]]]]; reflexivity.
Qed.

Lemma rhos_floor_and_order_witness :
  exists e,
    (e0 <- new_estimator ["kl"%string] [1; 2]%Z false ;;
     fit pop_first 1000 e0 line_012 true) = Ok e /\
    _get_rhos e line_012 line_012
    = Ok [[[clamp_dist (1 / 1000) 1; clamp_dist (1 / 1000) 4];
           [clamp_dist (1 / 1000) 1; clamp_dist (1 / 1000) 1];
           [clamp_dist (1 / 1000) 1; clamp_dist (1 / 1000) 4]]]%R /\
    Forall (fun k => (1 <= k)%Z) [1; 2]%Z /\
    Forall nondecreasing
      (nn_index (line_backend knn) [0; 1; 2]%Z [0; 1; 2]%Z 3) /\
    ascending [1; 2]%Z /\
    (forall row x,
       In row [[clamp_dist (1 / 1000) 1; clamp_dist (1 / 1000) 4];
               [clamp_dist (1 / 1000) 1; clamp_dist (1 / 1000) 1];
               [clamp_dist (1 / 1000) 1; clamp_dist (1 / 1000) 4]]%R ->
       In x row -> (1 / 1000 <= x)%R) /\
    (forall row,
       In row [[clamp_dist (1 / 1000) 1; clamp_dist (1 / 1000) 4];
               [clamp_dist (1 / 1000) 1; clamp_dist (1 / 1000) 1];
               [clamp_dist (1 / 1000) 1; clamp_dist (1 / 1000) 4]]%R ->
       length row = 2%nat /\ ordered_by_K [1; 2]%Z row /\
       nondecreasing row).
Proof.
  eexists. split; [reflexivity|].
  lazymatch goal with
  | |- _get_rhos ?e _ _ = Ok ?r /\ _ =>
      assert (Hg : _get_rhos e line_012 line_012 = Ok r) by reflexivity;
      destruct (rhos_floor_and_order e line_012 line_012 Hg)
        as (Hfloor & Hlen & Hord)
  end.
  assert (HKs : Forall (fun k => (1 <= k)%Z) [1; 2]%Z)
    by (repeat constructor; lia).
  assert (Hasc : ascending [1; 2]%Z).
  { intros i j a b Hij Ha Hb.
    destruct i as [|[|[|i]]], j as [|[|[|j]]]; simpl in Ha, Hb;
      inversion Ha; inversion Hb; subst; lia. }
  split; [exact Hg|]. split; [exact HKs|].
  split; [exact (line_012_sorted 3)|]. split; [exact Hasc|]. split.
  - intros row x Hrow Hx. exact (Hfloor _ row x (or_introl eq_refl) Hrow Hx).
  - intros row Hrow.
    split; [exact (Hlen _ row (or_introl eq_refl) Hrow)|].
    assert (Hs : forall bag idx max_K,
               Some 2%Z = Some max_K ->
               In (bag, idx) (combine line_012 line_012) ->
               Forall nondecreasing
                 (nn_index (line_backend knn) idx bag (max_K + 1))).
    { intros bag idx max_K Hk [Hin|[]].
      inversion Hk; inversion Hin; subst. exact (line_012_sorted 3). }
    destruct (Hord HKs Hs _ row (or_introl eq_refl) Hrow) as (Ho & _ & Ha).
    split; [exact Ho|exact (Ha Hasc)].
Defined.

Lemma sqrt_4 : sqrt 4 = 2%R.
Proof. replace 4%R with (2 * 2)%R by lra. apply sqrt_square; lra. Qed.

(** With [Ks = (2, 1)] and an index that returns distances in rank order,
    [fit] stores a rho row that decreases from its first to its second
    column: C8 as stated fails. *)
Lemma rho_rows_follow_Ks :
  exists e rhos,
    (e0 <- new_estimator ["kl"%string] [2; 1]%Z false ;;
     fit pop_first 1000 e0 line_012 false) = Ok e /\
    rhos_ e = Some rhos /\
    Forall nondecreasing
      (nn_index (line_backend knn) [0; 1; 2]%Z [0; 1; 2]%Z 3) /\
    ~ (forall rho row, In rho rhos -> In row rho -> nondecreasing row).
Proof.
  eexists; eexists.
  split; [reflexivity|]. split; [reflexivity|]. split.
  - exact (line_012_sorted 3).
  - intros H.
    specialize (H _ _ (or_introl eq_refl) (or_introl eq_refl)
                  0%nat 1%nat _ _ (Nat.le_0_l _) eq_refl eq_refl).
    cbn in H. rewrite sqrt_4, sqrt_1 in H.
    unfold Rmax in H.
    repeat destruct Rle_dec in H; lra.
Qed.

(** ** The life cycle: [_choose_funcs] *)

Lemma attr_ok {T : Type} name (v : option T) x :
  attr name v = Ok x -> v = Some x.
Proof. destruct v; simpl; intros H; inversion H; reflexivity. Qed.




Section ChooseFuncs.

Context {py : PyFloat} {reg : Registry (Alpha py)} {be : Backend reg}.

(** The fold over the [k_needed] attributes ends on the largest of its
    start value and the attributes. *)
Lemma fold_k_needed (l : list (Bound reg)) m0 :
  let ks := flat_map (fun b => match k_needed b with
                               | Some k => [k]
                               | None => []
                               end) l in
  let m := fold_left
             (fun m b => match k_needed b with
                         | Some k => Z.max m k
                         | None => m
                         end) l m0 in
  (m = m0 \/ In m ks) /\ (m0 <= m)%Z /\ Forall (fun k => (k <= m)%Z) ks.
Proof.
  revert m0; induction l as [|b l IH]; intros m0; cbn zeta; simpl.
  - split; [left; reflexivity|]. split; [lia|constructor].
  - destruct (k_needed b) as [k|]; simpl.
    + specialize (IH (Z.max m0 k)). cbn zeta in IH.
      destruct IH as (Hin & Hle & Hall). split; [|split].
      * destruct Hin as [Hin|Hin]; [|right; right; assumption].
        rewrite Hin. destruct (Z.max_spec m0 k) as [[_ ->]|[_ ->]]; auto.
      * lia.
      * constructor; [lia|assumption].
    + apply IH.
Qed.

Lemma choose_funcs_inv (e : Estimator be) X Y e1 :
  _choose_funcs e X Y = Ok e1 ->
  exists p fm kmax,
    plan_ e = Some p /\
    _set_up_funcs be (funcs_base (fst p)) (metas_base (fst p)) (Ks e)
      (feature_dim be X) (n_pts X) (option_map n_pts Y) = Ok fm /\
    np_max (Ks e) = Ok kmax /\
    is_maximum
      (fold_left
         (fun m b => match k_needed b with
                     | Some k => Z.max m k
                     | None => m
                     end)
         (dict_keys (fst fm))
         (Z.max kmax (match max_K_ e with Some k => k | None => 0%Z end)))
      (required_Ks e (fst fm) kmax) /\
    e1 = with_chosen fm
           (fold_left
              (fun m b => match k_needed b with
                          | Some k => Z.max m k
                          | None => m
                          end)
              (dict_keys (fst fm))
              (Z.max kmax (match max_K_ e with Some k => k | None => 0%Z end)))
           e.
Proof.
  unfold _choose_funcs. intros H.
  apply bind_ok in H as (p & Hp & H). apply attr_ok in Hp.
  apply bind_ok in H as (fm & Hfm & H).
  apply bind_ok in H as (kmax & Hk & H).
  inversion H; subst. exists p, fm, kmax.
  repeat (split; [assumption|]). split; [|reflexivity].
  pose proof (fold_k_needed (dict_keys (fst fm))
                (Z.max kmax (match max_K_ e with
                             | Some k => k
                             | None => 0%Z
                             end))) as Hf.
  cbn zeta in Hf. destruct Hf as (Hin & Hle & Hall).
  unfold is_maximum, required_Ks. split.
  - destruct Hin as [Hin|Hin]; [|right; right; assumption].
    rewrite Hin.
    destruct (Z.max_spec kmax (match max_K_ e with
                               | Some k => k
                               | None => 0%Z
                               end)) as [[_ ->]|[_ ->]]; simpl; auto.
  - constructor; [lia|]. constructor; [lia|assumption].
Qed.

(** What [_choose_funcs] leaves on the estimator: the effective max K,
    the specialized functions, and every other attribute as it was. *)
Lemma choose_funcs_max_K (e : Estimator be) X Y e1 :
  _choose_funcs e X Y = Ok e1 ->
  exists p fm kmax max_K,
    plan_ e = Some p /\
    _set_up_funcs be (funcs_base (fst p)) (metas_base (fst p)) (Ks e)
      (feature_dim be X) (n_pts X) (option_map n_pts Y) = Ok fm /\
    np_max (Ks e) = Ok kmax /\
    is_maximum max_K (required_Ks e (fst fm) kmax) /\
    max_K_ e1 = Some max_K /\ funcs_ e1 = Some fm /\
    Ks e1 = Ks e /\ plan_ e1 = plan_ e /\ rhos_ e1 = rhos_ e /\
    indices_ e1 = indices_ e /\ features_ e1 = features_ e /\
    min_dist e1 = min_dist e /\ do_sym e1 = do_sym e /\ log e1 = log e /\
    flann e1 = flann e /\ div_funcs e1 = div_funcs e /\ clamp e1 = clamp e.
Proof.
  intros H.
  apply choose_funcs_inv in H as (p & fm & kmax & Hp & Hfm & Hk & Hmax & ->).
  exists p, fm, kmax. eexists.
  repeat (split; [eassumption || reflexivity|]). reflexivity.
Qed.

End ChooseFuncs.

(** ** The check of the bag sizes: [_check_Ks] in [fit] *)

Lemma fold_min_spec l x :
  (In (fold_left Z.min l x) (x :: l)) /\
  Forall (fun y => (fold_left Z.min l x <= y)%Z) (x :: l).
Proof.
  revert x; induction l as [|a l IH]; intros x; simpl.
  - split; [auto|]. constructor; [lia|constructor].
  - destruct (IH (Z.min x a)) as [Hin Hall]. split.
    + simpl in Hin. destruct Hin as [Hin|Hin]; [|auto].
      rewrite <- Hin. destruct (Z.min_spec x a) as [[_ ->]|[_ ->]]; auto.
    + inversion Hall as [|? ? Hm Hl]; subst.
      constructor; [lia|]. constructor; [lia|assumption].
Qed.

Lemma np_min_spec l m :
  np_min l = Ok m -> In m l /\ Forall (fun y => (m <= y)%Z) l.
Proof.
  destruct l as [|x l]; simpl; intros H; inversion H; subst.
  apply fold_min_spec.
Qed.

Lemma np_min_returns l : l <> [] -> exists m, np_min l = Ok m.
Proof. destruct l; [congruence|]. simpl; eauto. Qed.

Section Check.
Context {py : PyFloat} {reg : Registry (Alpha py)} (be : Backend reg).
Variable choose : list (Func reg) -> nat.
Variable recursion_limit : nat.

Lemma n_pts_nil (X : list (list (Point be))) : n_pts X = [] -> X = [].
Proof. destruct X; [auto|discriminate]. Qed.

Lemma check_Ks_X (e : Estimator be) X max_K :
  max_K_ e = Some max_K -> X <> [] ->
  exists min_pt,
    np_min (n_pts X) = Ok min_pt /\
    _check_Ks e X None
    = if (max_K >=? min_pt)%Z
      then Raise (ValueError (too_few_points max_K min_pt)) else Ok tt.
Proof.
  intros Hk HX.
  destruct (@np_min_returns (n_pts X)) as (m & Hm).
  { intros E; apply HX, n_pts_nil; assumption. }
  exists m. split; [assumption|].
  unfold _check_Ks. rewrite Hm, Hk. reflexivity.
Qed.

Lemma get_rhos_no_ValueError (e : Estimator be) X ix msg :
  _check_Ks e X None = Ok tt ->
  _get_rhos e X ix <> Raise (ValueError msg).
Proof.
  unfold _get_rhos. intros ->. simpl.
  destruct (plan_ e) as [p|]; simpl; [|discriminate].
  destruct (max_K_ e) as [k|]; simpl; [|discriminate].
  generalize (combine X ix). intros l.
  assert (G : forall l, map_result
         (fun bi => bag_rho be (snd p) (Ks e) (min_dist e) k (fst bi) (snd bi)) l
         <> Raise (ValueError msg)).
  { clear. induction l as [|bi l IH]; simpl; [discriminate|].
    destruct (bag_rho be (snd p) (Ks e) (min_dist e) k (fst bi) (snd bi)) as [r|err] eqn:E.
    - simpl. destruct (map_result _ l); simpl; [discriminate|assumption].
    - simpl. intros H; inversion H; subst. revert E. unfold bag_rho.
      destruct (snd p).
      + simpl. discriminate.
      + destruct (select_columns (Ks e) (nn_index be (snd bi) (fst bi) (k + 1))) eqn:E2;
          simpl; [discriminate|].
        intros H'; inversion H'; subst. revert E2. unfold select_columns.
        generalize (nn_index be (snd bi) (fst bi) (k + 1)); intros d.
        induction d as [|row d IHd]; simpl; [discriminate|].
        match goal with |- bind ?m _ = _ -> _ => destruct m eqn:E3 end; simpl.
        * destruct (map_result _ d); simpl; [discriminate|]. intros H2. apply IHd. assumption.
        * intros H2; inversion H2; subst. revert E3. clear.
          induction (Ks e) as [|c cs IHc]; simpl; [discriminate|].
          destruct (py_index row c); simpl; [|discriminate].
          destruct (map_result _ cs); simpl; [discriminate|]. assumption. }
  apply G.
Qed.

(** C5, as the code has it: once [_setup_args] and [_choose_funcs] have
    run, the effective max K is the largest of [Ks.max()], the [max_K_]
    an earlier call left on the estimator (0 when there is none) and the
    [k_needed] of the specialized base functions.  [fit] raises the
    insufficient-points [ValueError], carrying that max K and the size of
    the smallest bag, from the check it runs on the estimator that has no
    new indices yet, as soon as some bag has at most that many points
    (equality included); when every bag has more points the check passes
    and [fit] raises no [ValueError]. *)
Theorem fit_checks_bag_sizes (e : Estimator be) X skip e1 e3 max_K :
  _setup_args choose recursion_limit e = Ok e1 ->
  _choose_funcs (with_features (Some X) e1) X None = Ok e3 ->
  max_K_ e3 = Some max_K ->
  (exists p fm kmax,
     plan_ e1 = Some p /\
     _set_up_funcs be (funcs_base (fst p)) (metas_base (fst p)) (Ks e1)
       (feature_dim be X) (n_pts X) None = Ok fm /\
     funcs_ e3 = Some fm /\
     np_max (Ks e1) = Ok kmax /\
     is_maximum max_K (required_Ks e1 (fst fm) kmax) /\
     indices_ e3 = indices_ e1) /\
  ((exists bag, In bag X /\ (Z.of_nat (length bag) <= max_K)%Z) ->
   exists min_pt,
     In min_pt (n_pts X) /\
     Forall (fun n => (min_pt <= n)%Z) (n_pts X) /\
     (min_pt <= max_K)%Z /\
     _check_Ks e3 X None
     = Raise (ValueError (too_few_points max_K min_pt)) /\
     fit choose recursion_limit e X skip
     = Raise (ValueError (too_few_points max_K min_pt))) /\
  (X <> [] ->
   (forall bag, In bag X -> (max_K < Z.of_nat (length bag))%Z) ->
   _check_Ks e3 X None = Ok tt /\
   fit choose recursion_limit e X true
   = Ok (with_indices (Some (_build_indices e3 X)) e3) /\
   forall msg,
     fit choose recursion_limit e X skip <> Raise (ValueError msg)).
Proof.
  intros Hs Hc Hk. split; [|split].
  - pose proof Hc as Hc'. apply choose_funcs_max_K in Hc'.
    destruct Hc' as (p & fm & kmax & m & Hp & Hfm & Hkm & Hmax & Hm & Hf
                     & EKs & _ & _ & Eix & _).
    rewrite Hk in Hm. inversion Hm; subst m.
    exists p, fm, kmax. repeat split; try assumption; apply Hmax.
  - intros (bag & Hbag & Hlen).
    assert (HX : X <> []) by (intros ->; contradiction).
    destruct (check_Ks_X e3 Hk HX) as (m & Hm & Hck).
    apply np_min_spec in Hm as [Hin Hall].
    assert (Hle : (m <= max_K)%Z).
    { rewrite Forall_forall in Hall.
      specialize (Hall (Z.of_nat (length bag))).
      assert (In (Z.of_nat (length bag)) (n_pts X))
        by (unfold n_pts; apply in_map_iff; eauto).
      specialize (Hall H). lia. }
    assert (Hge : (max_K >=? m)%Z = true) by (apply Z.geb_le; lia).
    rewrite Hge in Hck.
    exists m. repeat split; auto.
    unfold fit. rewrite Hs. simpl. rewrite Hc. simpl. rewrite Hck. reflexivity.
  - intros HX Hall.
    destruct (check_Ks_X e3 Hk HX) as (m & Hm & Hck).
    apply np_min_spec in Hm as [Hin _].
    unfold n_pts in Hin. apply in_map_iff in Hin as (bag & <- & Hbag).
    specialize (Hall bag Hbag).
    assert (Hge : (max_K >=? Z.of_nat (length bag))%Z = false).
    { destruct (max_K >=? Z.of_nat (length bag))%Z eqn:E; [|reflexivity].
      apply Z.geb_le in E. lia. }
    rewrite Hge in Hck. split; [assumption|].
    unfold fit. rewrite Hs. simpl. rewrite Hc. simpl. rewrite Hck. simpl.
    split; [reflexivity|].
    intros msg. destruct skip; [discriminate|].
    intros Heq. apply bind_raise in Heq as [Heq|(r & _ & Heq)];
      [|discriminate].
    revert Heq. apply get_rhos_no_ValueError. exact Hck.
Qed.
End Check.

Lemma fit_checks_bag_sizes_witness :
  exists e0 e1 e3 : Estimator (line_backend knn),
    new_estimator ["kl"%string] [5%Z] false = Ok e0 /\
    _setup_args pop_first 1000 e0 = Ok e1 /\
    _choose_funcs (with_features (be := line_backend knn)
                     (Some line_3_2) e1) line_3_2 None
    = Ok e3 /\
    max_K_ e3 = Some 5%Z /\
    (exists p fm kmax,
       plan_ e1 = Some p /\
       _set_up_funcs (line_backend knn) (funcs_base (fst p))
         (metas_base (fst p)) (Ks e1)
         (feature_dim (line_backend knn) line_3_2)
         (n_pts (be := line_backend knn) line_3_2) None = Ok fm /\
       funcs_ e3 = Some fm /\
       np_max (Ks e1) = Ok kmax /\
       is_maximum 5%Z (required_Ks e1 (fst fm) kmax) /\
       indices_ e3 = indices_ e1) /\
    ((exists bag, In bag line_3_2 /\ (Z.of_nat (length bag) <= 5)%Z) /\
     exists min_pt,
       In min_pt [3; 2]%Z /\
       Forall (fun n => (min_pt <= n)%Z) [3; 2]%Z /\
       (min_pt <= 5)%Z /\
       _check_Ks e3 line_3_2 None
       = Raise (ValueError (too_few_points 5 min_pt)) /\
       fit pop_first 1000 e0 line_3_2 false
       = Raise (ValueError (too_few_points 5 min_pt))).
Proof.
  eexists; eexists; eexists.
  split; [reflexivity|]. split; [reflexivity|]. split; [reflexivity|].
  split; [reflexivity|].
  assert (Hbag : exists bag, In bag line_3_2
                             /\ (Z.of_nat (length bag) <= 5)%Z).
  { exists [0; 1]%Z. split; [right; left; reflexivity|simpl; lia]. }
  lazymatch goal with
  | |- _ /\ (_ /\ exists m, _ /\ _ /\ _ /\ _ /\ fit _ _ ?e0 ?X ?skip = _) =>
      destruct (@fit_checks_bag_sizes _ _ (line_backend knn) pop_first
                  1000 e0 X skip _ _ 5%Z eq_refl eq_refl eq_refl)
        as (Hmax & Hraise & _)
  end.
  split; [exact Hmax|]. split; [exact Hbag|]. exact (Hraise Hbag).
Defined.

(** A bag of exactly [max_K_] points has not fewer points than the
    required K, and [fit] rejects it; and after a fit with [Ks = (2,)]
    the estimator keeps [max_K_ = 2], so that a refit with [Ks = (1,)]
    rejects a bag of two points, which has more points than the only K
    requested: C5 as stated fails. *)
Lemma fit_rejects_bag_of_max_K_points :
  ((e0 <- new_estimator ["kl"%string] [3%Z] false ;;
    fit pop_first 1000 e0 line_012 false)
   = Raise (ValueError
              "asked for K = 3, but there's a bag with only 3 points") /\
   ~ (exists bag, In bag line_012 /\ (Z.of_nat (length bag) < 3)%Z)) /\
  (exists e : Estimator (line_backend knn),
     (e0 <- new_estimator ["kl"%string] [2%Z] false ;;
      fit pop_first 1000 e0 line_012 false) = Ok e /\
     max_K_ e = Some 2%Z /\
     fit pop_first 1000 (with_Ks [1%Z] e) [[0; 1]%Z] false
     = Raise (ValueError
                "asked for K = 2, but there's a bag with only 2 points") /\
     ~ (exists bag, In bag [[0; 1]%Z] /\ (Z.of_nat (length bag) <= 1)%Z)).
Proof.
  split.
  - split; [reflexivity|].
    intros (bag & [<-|[]] & H). simpl in H. lia.
  - eexists. split; [reflexivity|]. split; [reflexivity|].
    split; [reflexivity|].
    intros (bag & [<-|[]] & H). simpl in H. lia.
Qed.

(** ** Spec tokens: the checks before [add_func] *)





Section Tokens.

Variable py : PyFloat.
Variable reg : Registry (Alpha py).
Variable choose : list (Func reg) -> nat.
Variable recursion_limit : nat.




End Tokens.



(** ** [transform]: the radii it uses *)

Section Transform.

Context {py : PyFloat} {reg : Registry (Alpha py)} {be : Backend reg}.

Lemma transform_prepare_inv (e : Estimator be) Y pr :
  transform_prepare e Y = Ok pr ->
  exists X old e1 max_K e3 fm ix xr,
    features_ e = Some X /\ max_K_ e = Some old /\
    _choose_funcs e X (Some Y) = Ok e1 /\
    _check_Ks e1 X (Some Y) = Ok tt /\
    max_K_ e1 = Some max_K /\
    match rhos_ (after_growth e1 old max_K) with
    | Some _ => e3 = after_growth e1 old max_K
    | None =>
        exists ix0 r,
          indices_ (after_growth e1 old max_K) = Some ix0 /\
          _get_rhos (after_growth e1 old max_K) X ix0 = Ok r /\
          e3 = with_rhos (Some r) (after_growth e1 old max_K)
    end /\
    funcs_ e3 = Some fm /\ indices_ e3 = Some ix /\ rhos_ e3 = Some xr /\
    (if do_sym e3 || negb (is_nil (transpose_positions (snd fm)))
     then exists r, _get_rhos e3 Y (_build_indices e3 Y) = Ok r
                    /\ p_Y_rhos pr = Some r
     else p_Y_rhos pr = None) /\
    p_do_sym pr
    = (do_sym e3 || negb (is_nil (transpose_positions (snd fm)))) /\
    p_est pr = e3 /\ p_X pr = X /\ p_X_indices pr = ix /\
    p_X_rhos pr = xr /\ p_Y_indices pr = _build_indices e3 Y.
Proof.
  unfold transform_prepare. intros H.
  apply bind_ok in H as (X & HX & H). apply attr_ok in HX.
  apply bind_ok in H as (old & Hold & H). apply attr_ok in Hold.
  apply bind_ok in H as (e1 & He1 & H).
  apply bind_ok in H as ([] & Hck & H).
  apply bind_ok in H as (max_K & Hmk & H). apply attr_ok in Hmk.
  fold (after_growth e1 old max_K) in H.
  apply bind_ok in H as (e3 & He3 & H).
  apply bind_ok in H as (fm & Hfm & H). apply attr_ok in Hfm.
  apply bind_ok in H as (ix & Hix & H). apply attr_ok in Hix.
  apply bind_ok in H as (xr & Hxr & H). apply attr_ok in Hxr.
  apply bind_ok in H as (yr & Hyr & H).
  inversion H; subst; clear H. cbn [p_est p_X p_do_sym p_X_indices p_X_rhos p_Y_indices p_Y_rhos].
  exists X, old, e1, max_K, e3, fm, ix, xr.
  repeat (split; [assumption || reflexivity|]).
  split.
  { destruct (rhos_ (after_growth e1 old max_K)).
    - inversion He3; reflexivity.
    - apply bind_ok in He3 as (ix0 & Hix0 & He3). apply attr_ok in Hix0.
      apply bind_ok in He3 as (r & Hr & He3). inversion He3; subst.
      exists ix0, r. auto. }
  repeat (split; [assumption || reflexivity|]).
  split.
  { destruct (do_sym e3 || negb (is_nil (transpose_positions (snd fm)))).
    - apply bind_ok in Hyr as (r & Hr & Hyr). inversion Hyr; subst. eauto.
    - inversion Hyr; reflexivity. }
  repeat split.
Qed.






End Transform.



(** ** Fitting an estimator again *)

Section Refit.
Context {py : PyFloat} {reg : Registry (Alpha py)} {be : Backend reg}.
Variable choose : list (Func reg) -> nat.
Variable recursion_limit : nat.

Lemma setup_args_keeps (e e1 : Estimator be) :
  _setup_args choose recursion_limit e = Ok e1 ->
  rhos_ e1 = rhos_ e /\ max_K_ e1 = max_K_ e /\ indices_ e1 = indices_ e /\
  features_ e1 = features_ e /\ div_funcs e1 = div_funcs e /\ Ks e1 = Ks e /\
  (forall p, plan_ e = Some p -> plan_ e1 = Some p).
Proof.
  unfold _setup_args. intros H.
  apply bind_ok in H as (m & _ & H).
  destruct (m <? 1)%Z; [discriminate|].
  apply bind_ok in H as (e' & He' & H).
  destruct (flann_parameters_ok be (flann e')); inversion H; subst; clear H.
  destruct (plan_ e) as [p|] eqn:Ep.
  - inversion He'; subst. repeat split; auto. intros; congruence.
  - apply bind_ok in He' as (p & _ & He'). inversion He'; subst.
    repeat split; auto. discriminate.
Qed.

(** [fit(X, skip_rhos=True)] leaves [rhos_] as it was. *)
Lemma fit_skip_keeps_rhos (e e' : Estimator be) X :
  fit choose recursion_limit e X true = Ok e' -> rhos_ e' = rhos_ e.
Proof.
  unfold fit. intros H.
  apply bind_ok in H as (e1 & H1 & H).
  apply bind_ok in H as (e3 & H3 & H).
  apply bind_ok in H as (u & _ & H). inversion H; subst; clear H.
  apply choose_funcs_max_K in H3.
  destruct H3 as (p & fm & kmax & k & _ & _ & _ & _ & _ & _ & _ & _ & Er & _).
  apply setup_args_keeps in H1 as (Er1 & _).
  cbn. rewrite Er. cbn. assumption.
Qed.

(** [fit] keeps a plan the estimator already has, whatever [div_funcs]
    and [Ks] have become. *)
Lemma fit_keeps_plan (e e' : Estimator be) X skip p d k :
  plan_ e = Some p ->
  fit choose recursion_limit (with_div_funcs d (with_Ks k e)) X skip = Ok e' ->
  plan_ e' = Some p /\ div_funcs e' = d /\ Ks e' = k.
Proof.
  unfold fit. intros Hp H.
  apply bind_ok in H as (e1 & H1 & H).
  apply bind_ok in H as (e3 & H3 & H).
  apply bind_ok in H as (u & _ & H).
  apply choose_funcs_max_K in H3.
  destruct H3 as (p' & fm & kmax & k' & _ & _ & _ & _ & _ & _ & EK & Ep & _
                  & _ & _ & _ & _ & _ & _ & Ed & _).
  apply setup_args_keeps in H1 as (_ & _ & _ & _ & Ed1 & EK1 & Hp1).
  specialize (Hp1 p Hp).
  assert (G : plan_ e3 = Some p /\ div_funcs e3 = d /\ Ks e3 = k).
  { rewrite Ep, Ed, EK. cbn. rewrite Hp1, Ed1, EK1. auto. }
  destruct skip.
  - inversion H; subst. exact G.
  - apply bind_ok in H as (r & _ & H). inversion H; subst. exact G.
Qed.
End Refit.

Lemma sqrt_100 : sqrt 100 = 10%R.
Proof. replace 100%R with (10 * 10)%R by lra. apply sqrt_square; lra. Qed.

(** C10 fails on an estimator that was fitted before:
    [fit(X, skip_rhos=True)] does not touch [rhos_], so after a fit on
    [line_012] and a second fit on [line_far] with [skip_rhos=True] the
    radii of [line_012] are still cached, and [transform] uses them with
    the points and indices of [line_far], where a second fit without
    [skip_rhos] uses the radii of [line_far]. *)
Lemma skip_rhos_keeps_stale_radii :
  (e0 <- new_estimator ["kl"%string] [1%Z] false ;;
   fit pop_first 1000 e0 line_012 false) = Ok kl_fitted /\
  fit pop_first 1000 kl_fitted line_far true = Ok kl_refitted_skip /\
  fit pop_first 1000 kl_fitted line_far false = Ok kl_refitted /\
  features_ kl_refitted_skip = Some line_far /\
  rhos_ kl_refitted_skip = rhos_ kl_fitted /\
  rhos_ kl_refitted_skip <> None /\
  (exists pr pr',
     transform_prepare kl_refitted_skip line_012 = Ok pr /\
     transform_prepare kl_refitted line_012 = Ok pr' /\
     p_X pr = p_X pr' /\
     p_X_rhos pr = [[[clamp_dist (1 / 1000) 1];
                     [clamp_dist (1 / 1000) 1];
                     [clamp_dist (1 / 1000) 1]]] /\
     p_X_rhos pr' = [[[clamp_dist (1 / 1000) 100];
                      [clamp_dist (1 / 1000) 100];
                      [clamp_dist (1 / 1000) 100]]] /\
     p_X_rhos pr <> p_X_rhos pr').
Proof.
  split; [reflexivity|]. split; [reflexivity|]. split; [reflexivity|].
  split; [reflexivity|]. split; [reflexivity|]. split; [discriminate|].
  eexists; eexists. split; [reflexivity|]. split; [reflexivity|].
  split; [reflexivity|]. split; [reflexivity|]. split; [reflexivity|].
  cbn [p_X_rhos]. intros H.
  assert (E : clamp_dist (1 / 1000) 1 = clamp_dist (1 / 1000) 100).
  { change (Rmax (1 / 1000) (sqrt 1) = Rmax (1 / 1000) (sqrt 100)).
    injection H. auto. }
  unfold clamp_dist in E. rewrite sqrt_1, sqrt_100 in E.
  unfold Rmax in E. repeat destruct Rle_dec in E; lra.
Qed.

(** C2 fails: [_setup_args] parses the specs only when the estimator has
    no plan yet.  After [div_funcs] is set from [('kl',)] to
    [('linear',)], [fit] keeps the plan built for [('kl',)], where
    [_parse_specs] on the new specs gives a plan for [linear]. *)
Lemma plan_is_not_rebuilt :
  fit pop_first 1000 (with_div_funcs ["linear"%string] kl_fitted)
    line_012 false = Ok kl_respecified /\
  div_funcs kl_respecified = ["linear"%string] /\
  plan_ kl_respecified = plan_ kl_fitted /\
  (exists p sa,
     plan_ kl_respecified = Some (p, sa) /\
     dict_keys (funcs_base p) = [kl]) /\
  (exists p',
     _parse_specs knn pop_first 1000 ["linear"%string] [1%Z] = Ok p' /\
     dict_keys (funcs_base p') = [linear]).
Proof.
  split; [reflexivity|]. split; [reflexivity|]. split; [reflexivity|].
  split.
  - eexists; eexists. split; reflexivity.
  - eexists. split; reflexivity.
Qed.

(** ** [_finalize] and the tensor [transform] returns *)

Section Finalize.
Context {py : PyFloat} {reg : Registry (Alpha py)} {be : Backend reg}.

Lemma after_growth_keeps (e1 : Estimator be) old k :
  plan_ (after_growth e1 old k) = plan_ e1 /\
  funcs_ (after_growth e1 old k) = funcs_ e1 /\
  do_sym (after_growth e1 old k) = do_sym e1 /\
  Ks (after_growth e1 old k) = Ks e1 /\
  div_funcs (after_growth e1 old k) = div_funcs e1 /\
  max_K_ (after_growth e1 old k) = max_K_ e1 /\
  indices_ (after_growth e1 old k) = indices_ e1 /\
  min_dist (after_growth e1 old k) = min_dist e1 /\
  features_ (after_growth e1 old k) = features_ e1 /\
  flann (after_growth e1 old k) = flann e1.
Proof.
  unfold after_growth. destruct (rhos_ e1); [|repeat split].
  destruct (k >? old)%Z; repeat split.
Qed.

(** What [transform_prepare] leaves on the estimator. *)
Lemma transform_prepare_est (e : Estimator be) Y pr :
  transform_prepare e Y = Ok pr ->
  exists X p fm,
    features_ e = Some X /\ plan_ e = Some p /\
    _set_up_funcs be (funcs_base (fst p)) (metas_base (fst p)) (Ks e)
      (feature_dim be X) (n_pts X) (Some (n_pts Y)) = Ok fm /\
    plan_ (p_est pr) = Some p /\ funcs_ (p_est pr) = Some fm /\
    do_sym (p_est pr) = do_sym e /\ Ks (p_est pr) = Ks e /\
    div_funcs (p_est pr) = div_funcs e /\
    p_do_sym pr
    = (do_sym e || negb (is_nil (transpose_positions (snd fm)))) /\
    (p_do_sym pr = false -> p_Y_rhos pr = None) /\
    (p_do_sym pr = true -> exists r, p_Y_rhos pr = Some r).
Proof.
  intros H. apply transform_prepare_inv in H.
  destruct H as (X & old & e1 & k & e3 & fm & ix & xr & HX & Hold & Hc & _
                 & _ & He3 & Hfm & _ & _ & HY & Hsym & Hest & _).
  apply choose_funcs_max_K in Hc.
  destruct Hc as (p & fm' & kmax & k' & Hp & Hset & _ & _ & _ & Hfm' & EK
                  & Ep & _ & _ & _ & _ & Esy & _ & _ & Ed & _).
  destruct (after_growth_keeps e1 old k)
    as (Gp & Gf & Gs & GK & Gd & _).
  assert (G : plan_ e3 = plan_ e1 /\ funcs_ e3 = funcs_ e1 /\
              do_sym e3 = do_sym e1 /\ Ks e3 = Ks e1 /\
              div_funcs e3 = div_funcs e1).
  { destruct (rhos_ (after_growth e1 old k)).
    - subst e3. auto.
    - destruct He3 as (ix0 & r & _ & _ & ->). cbn. auto. }
  destruct G as (Fp & Ff & Fs & FK & Fd).
  assert (fm' = fm) by congruence. subst fm'.
  exists X, p, fm. rewrite Hest.
  split; [exact HX|]. split; [exact Hp|]. split; [exact Hset|].
  split; [congruence|]. split; [congruence|]. split; [congruence|].
  split; [congruence|]. split; [congruence|].
  assert (Es : do_sym e3 = do_sym e) by congruence.
  rewrite Es in Hsym, HY.
  split; [exact Hsym|].
  rewrite Hsym. split; intros E; rewrite E in HY.
  - assumption.
  - destruct HY as (r & _ & HY). eauto.
Qed.

(** [_finalize] raises when all ranks are kept and there are no radii
    for the second collection. *)
Lemma finalize_without_Y_rhos (e : Estimator be) outputs xr p :
  plan_ e = Some (p, true) ->
  exists err, _finalize e outputs xr None = Raise err.
Proof.
  intros Hp. unfold _finalize. rewrite Hp. cbn [attr bind snd].
  destruct (map_result
              (select_columns (map (fun k => (k - 1)%Z) (Ks e))) xr);
    cbn [bind]; eauto.
Qed.

Lemma set_up_funcs_no_metas fs Ks0 dim X_ns Y_ns fm :
  _set_up_funcs be fs [] Ks0 dim X_ns Y_ns = Ok fm -> snd fm = [].
Proof.
  unfold _set_up_funcs. intros H.
  apply bind_ok in H as (rf & _ & H). cbn in H. inversion H. reflexivity.
Qed.

(** With a base function that needs all ranks, no meta function and
    [do_sym] false, [transform] raises whatever the collections are. *)
Lemma transform_without_symmetric_pass (e : Estimator be) Y p :
  plan_ e = Some (p, true) -> metas_base p = [] -> do_sym e = false ->
  exists err, transform e Y = Raise err.
Proof.
  intros Hp Hm Hs. unfold transform.
  destruct (transform_prepare e Y) as [pr|err] eqn:Hpr; [|cbn; eauto].
  cbn [bind].
  apply transform_prepare_est in Hpr.
  destruct Hpr as (X & p' & fm & _ & Hp' & Hset & Hpl & Hfm & Hsy & _ & _
                   & Hsym & HY & _).
  rewrite Hp in Hp'. inversion Hp'; subst p'. cbn [fst] in *.
  rewrite Hm in Hset. apply set_up_funcs_no_metas in Hset.
  rewrite Hset, Hs in Hsym. cbn in Hsym. specialize (HY Hsym).
  rewrite Hpl, Hfm. cbn [attr bind].
  destruct (attr "max_K_" (max_K_ (p_est pr))); cbn [bind]; [|eauto].
  rewrite HY.
  match goal with
  | |- exists err, bind ?m _ = _ => destruct m as [outputs|err']
  end; cbn [bind]; [|eauto].
  destruct (finalize_without_Y_rhos (p_est pr) outputs (p_X_rhos pr) Hpl)
    as (err' & ->).
  cbn. eauto.
Qed.

End Finalize.

(** C4 fails for a valid configuration: with [div_funcs = ('js-core',)]
    and [do_sym] false no radii are computed for the second collection,
    all ranks are kept, and [_finalize] iterates over [Y_rhos = None]:
    [transform] raises [TypeError] and returns no tensor. *)
Lemma transform_fails_for_js_core :
  (e0 <- new_estimator ["js-core"%string] [4%Z] false ;;
   fit pop_first 1000 e0 line_10 false) = Ok js_core_fitted /\
  do_sym js_core_fitted = false /\
  transform js_core_fitted line_10
  = Raise (TypeError "'NoneType' object is not iterable").
Proof. split; [reflexivity|]. split; reflexivity. Qed.

(** ** [topological_sort] *)

(** C1 fails on a cycle: the test after the loop reads [available], which
    is empty whenever the loop has ended, so no error is raised.  On two
    nodes that are each other's parent [topological_sort] returns the
    empty order, and with two meta functions that require each other
    [_parse_specs] returns a plan from which both are missing. *)
Lemma cycle_is_not_reported :
  (forall choose : list nat -> nat,
     topological_sort Nat.eq_dec choose [(1, [2]); (2, [1])]%nat = Ok []) /\
  _parse_specs ping_pong_registry pop_first 1000 ["ping"%string] [3%Z]
  = Ok {| funcs_base := []; metas_base := []; n_meta_only := 1 |}.
Proof. split; [intros choose|]; reflexivity. Qed.

(** ** The plan of [_parse_specs] and the symmetric pass *)

Lemma dict_get_In {K V : Type} (dec : forall a b : K, {a = b} + {a <> b})
  (k : K) (v : V) d :
  dict_get dec k d = Some v -> In (k, v) d.
Proof.
  induction d as [|[k' v'] d IH]; simpl; [discriminate|].
  destruct (dec k' k) as [->|]; intros H.
  - inversion H; subst. left; reflexivity.
  - right; auto.
Qed.

Lemma concat_results_ok rs ds :
  concat_results rs = Ok ds ->
  exists ls, Forall2 (fun r l => r = Ok l) rs ls /\ ds = concat ls.
Proof.
  revert ds; induction rs as [|r rs IH]; simpl; intros ds H.
  - inversion H. exists []. split; [constructor|reflexivity].
  - apply bind_ok in H as (a & Ha & H).
    apply bind_ok in H as (b & Hb & H). inversion H; subst.
    destruct (IH _ Hb) as (ls & Hls & ->).
    exists (a :: ls). split; [constructor; auto|reflexivity].
Qed.

Section PlanShape.

Variable py : PyFloat.
Variable reg : Registry (Alpha py).
Variable choose : list (Func reg) -> nat.
Variable recursion_limit : nat.

Lemma order_metas_In ms order r f info :
  order_metas reg ms order = Ok r -> In (f, info) r ->
  In f order /\ is_meta reg f = true /\
  dict_get (Func_eq_dec reg) f ms = Some info.
Proof.
  revert r; induction order as [|g order IH]; simpl; intros r H Hin.
  - inversion H; subst. contradiction.
  - destruct (is_meta reg g) eqn:Eg.
    + destruct (dict_get (Func_eq_dec reg) g ms) as [i|] eqn:Ei;
        [|discriminate].
      apply bind_ok in H as (r' & Hr' & H). inversion H; subst.
      destruct Hin as [Hin|Hin].
      * inversion Hin; subst. auto.
      * destruct (IH _ Hr' Hin) as (? & ? & ?). auto.
    + destruct (IH _ H Hin) as (? & ? & ?). auto.
Qed.

(** What [_parse_specs] returns, stage by stage. *)
Lemma parse_specs_inv specs Ks0 p :
  _parse_specs reg choose recursion_limit specs Ks0 = Ok p ->
  exists st fs c1 ms0 c2 ms meta_order,
    add_specs reg recursion_limit 0 specs (empty_state reg) = Ok st /\
    number_infos (funcs st) (-1)%Z = (fs, c1) /\
    number_infos (metas st) c1 = (ms0, c2) /\
    Forall2 (fun e0 e1 => fst e1 = fst e0 /\
                          fill_deps reg fs ms0 (fst e0) (snd e0) = Ok (snd e1))
      ms0 ms /\
    topological_sort (Func_eq_dec reg) choose (meta_deps st)
    = Ok meta_order /\
    order_metas reg ms meta_order = Ok (metas_base p) /\
    funcs_base p = fs /\ n_meta_only p = (- c2 - 1)%Z.
Proof.
  unfold _parse_specs. intros H.
  apply bind_ok in H as (st & Hst & H).
  destruct (number_infos (funcs st) (-1)%Z) as [fs c1] eqn:E1.
  destruct (number_infos (metas st) c1) as [ms0 c2] eqn:E2.
  apply bind_ok in H as (ms & Hms & H).
  apply bind_ok in H as (mo & Hmo & H).
  apply bind_ok in H as (r & Hr & H). inversion H; subst; clear H.
  exists st, fs, c1, ms0, c2, ms, mo. cbn.
  repeat (split; [assumption || reflexivity|]).
  split; [|auto].
  apply map_result_ok in Hms.
  eapply Forall2_impl; [|exact Hms].
  intros e0 e1 He. cbv beta in He.
  apply bind_ok in He as (i & Hi & He). inversion He; subst. auto.
Qed.

(** A meta function whose first requirement takes no alpha has at least
    one slot in its [deps]. *)
Lemma fill_deps_first fs ms f info0 info req rest :
  fill_deps reg fs ms f info0 = Ok info ->
  needs_results reg f = Some (req :: rest) ->
  req_alpha req = AlphaNone ->
  exists d ds, deps info = d :: ds.
Proof.
  unfold fill_deps. intros H Hreq Hal. rewrite Hreq in H.
  apply bind_ok in H as (ds & Hds & H). inversion H; subst; clear H.
  cbn [deps].
  simpl in Hds. apply bind_ok in Hds as (a & Ha & Hds).
  apply bind_ok in Hds as (b & _ & Hds). inversion Hds; subst.
  unfold req_positions in Ha.
  apply bind_ok in Ha as (ri & _ & Ha). rewrite Hal in Ha.
  destruct (pos ri) as [|x [|y l]]; inversion Ha; subst.
  destruct (deps info0); cbn; eauto.
Qed.


Variable be : Backend reg.

Lemma set_up_funcs_metas fs ms Ks0 dim X_ns Y_ns fm :
  _set_up_funcs be fs ms Ks0 dim X_ns Y_ns = Ok fm ->
  Forall2 (fun e b => bound_func (fst b) = fst e /\ snd b = snd e)
    fs (fst fm) /\
  Forall2 (fun e b => bound_func (fst b) = fst e /\ snd b = snd e)
    ms (snd fm).
Proof.
  unfold _set_up_funcs. intros H.
  apply bind_ok in H as (rf & Hrf & H).
  apply bind_ok in H as (rm & Hrm & H). inversion H; subst; clear H.
  assert (G : forall l r,
             map_result
               (fun e : Func reg * FuncInfo (Alpha py) Z =>
                  b <- replace_func be Ks0 dim X_ns Y_ns (fst e) (snd e) ;;
                  Ok (b, snd e)) l = Ok r ->
             Forall2 (fun e b => bound_func (fst b) = fst e /\ snd b = snd e)
               l r).
  { intros l r Hl. apply map_result_ok in Hl.
    eapply Forall2_impl; [|exact Hl].
    intros e b Hb. cbv beta in Hb.
    apply bind_ok in Hb as (b0 & Hb0 & Hb). inversion Hb; subst. cbn.
    split; [|reflexivity].
    unfold replace_func in Hb0.
    destruct (has_chooser_fn reg (fst e)).
    - apply bind_ok in Hb0 as (k & _ & Hb0). inversion Hb0; reflexivity.
    - inversion Hb0; reflexivity. }
  cbn. split; apply G; assumption.
Qed.

Lemma transpose_positions_In (ms : Dict (Bound reg) (FuncInfo (Alpha py) Z))
  meta info req rest d ds :
  In (meta, info) ms ->
  needs_results reg (bound_func meta) = Some (req :: rest) ->
  needs_transpose req = true ->
  deps info = d :: ds ->
  In d (transpose_positions ms).
Proof.
  intros Hin Hreq Ht Hd. unfold transpose_positions.
  apply in_flat_map. exists (meta, info). split; [assumption|].
  cbn [fst snd]. rewrite Hreq, Hd. cbn. rewrite Ht. left; reflexivity.
Qed.

(** In a registry where a meta function that takes the radii of the
    second collection has a first requirement without alpha that needs
    the transpose, such a function in [metas_] has a slot in
    [transpose_positions], so [transform] makes the symmetric pass and
    computes those radii. *)
Lemma sym_pass_for_Y_rhos (e : Estimator be) Y pr specs Ks0 p sa :
  (forall f, snd (needs_rhos reg f) = true ->
     exists req rest,
       needs_results reg f = Some (req :: rest) /\
       needs_transpose req = true /\ req_alpha req = AlphaNone) ->
  plan_ e = Some (p, sa) ->
  _parse_specs reg choose recursion_limit specs Ks0 = Ok p ->
  transform_prepare e Y = Ok pr ->
  forall fm meta info,
    funcs_ (p_est pr) = Some fm -> In (meta, info) (snd fm) ->
    snd (needs_rhos reg (bound_func meta)) = true ->
    (exists d ds, deps info = d :: ds /\
                  In d (transpose_positions (snd fm))) /\
    p_do_sym pr = true /\
    exists r, _get_rhos (p_est pr) Y (p_Y_indices pr) = Ok r /\
              p_Y_rhos pr = Some r.
Proof.
  intros Hreg Hp Hparse Hpr fm meta info Hfm Hin Hneeds.
  pose proof (transform_prepare_est _ _ Hpr) as Hest.
  destruct Hest as (X & p' & fm' & _ & Hp' & Hset & _ & Hfm' & _ & _ & _
                    & Hsym & _ & _).
  rewrite Hp in Hp'. inversion Hp'; subst p'. cbn [fst] in Hset.
  assert (fm' = fm) by congruence. subst fm'.
  apply set_up_funcs_metas in Hset as [_ Hms].
  destruct (Forall2_in_r _ Hms Hin) as ([f info0] & Hin0 & Hf & Hi).
  cbn [fst snd] in Hf, Hi. subst info0.
  apply parse_specs_inv in Hparse.
  destruct Hparse as (st & fs & c1 & ms0 & c2 & ms & mo & _ & _ & _ & Hfill
                      & _ & Hord & _).
  destruct (order_metas_In _ _ _ _ Hord Hin0) as (_ & _ & Hget).
  apply dict_get_In in Hget.
  destruct (Forall2_in_r _ Hfill Hget) as ([f0 i0] & _ & Hf0 & Hfd).
  cbn [fst snd] in Hf0, Hfd. subst f0.
  destruct (Hreg _ Hneeds) as (req & rest & Hreq & Ht & Hal).
  rewrite Hf in Hreq.
  destruct (fill_deps_first _ _ _ _ Hfd Hreq Hal) as (d & ds & Hd).
  assert (Hd' : In d (transpose_positions (snd fm))).
  { eapply transpose_positions_In; eauto. rewrite Hf. exact Hreq. }
  assert (Hs : p_do_sym pr = true).
  { rewrite Hsym. destruct (transpose_positions (snd fm));
      [contradiction|]. apply orb_true_r. }
  split; [eauto|]. split; [assumption|].
  apply transform_prepare_inv in Hpr.
  destruct Hpr as (X' & old & e1 & k & e3 & fm' & ix & xr & _ & _ & _ & _
                   & _ & _ & Hfm3 & _ & _ & HY & Hsym' & Hest & _ & _ & _
                   & Hyi).
  rewrite Hs in Hsym'. rewrite <- Hsym' in HY.
  rewrite Hest, Hyi. exact HY.
Qed.

End PlanShape.

(** C9: with the functions of [knn.py], a meta function in [metas_] that
    takes the radii of the second collection ([l2], [jensen_shannon]) has
    a first requirement that needs the transpose, so its first
    dependency is a slot of [transpose_positions]; [transform] then makes
    the symmetric pass, computes the radii of the second collection with
    [_get_rhos] and hands them, not [None], to [_finalize].  The plan is
    any plan [_parse_specs] returns. *)
Theorem Y_rhos_computed_for_meta (py : PyFloat)
  (be : Backend (knn_registry py)) choose recursion_limit
  (e : Estimator be) Y pr specs Ks0 p sa fm meta info :
  plan_ e = Some (p, sa) ->
  _parse_specs (knn_registry py) choose recursion_limit specs Ks0 = Ok p ->
  transform_prepare e Y = Ok pr ->
  funcs_ (p_est pr) = Some fm -> In (meta, info) (snd fm) ->
  snd (needs_rhos (knn_registry py) (bound_func meta)) = true ->
  (exists d ds, deps info = d :: ds /\
                In d (transpose_positions (snd fm))) /\
  p_do_sym pr = true /\
  exists r, _get_rhos (p_est pr) Y (p_Y_indices pr) = Ok r /\
            p_Y_rhos pr = Some r.
Proof.
  intros Hp Hparse Hpr Hfm Hin Hneeds.
  eapply sym_pass_for_Y_rhos; eauto.
  intros f Hf. destruct f; cbn in Hf; try discriminate; cbn; eauto.
Qed.

Lemma Y_rhos_computed_for_meta_witness :
  (exists d ds, deps (snd l2_meta_info) = d :: ds /\
                In d (transpose_positions (snd l2_funcs))) /\
  p_do_sym l2_prepared = true /\
  exists r, _get_rhos (p_est l2_prepared) line_012 (p_Y_indices l2_prepared)
            = Ok r /\
            p_Y_rhos l2_prepared = Some r.
Proof.
  apply (@Y_rhos_computed_for_meta decimal_float (line_backend knn)
           pop_first 1000%nat l2_fitted line_012 l2_prepared
           ["l2"%string] [1%Z] l2_plan false l2_funcs (fst l2_meta_info) (snd l2_meta_info)).
  - reflexivity.
  - reflexivity.
  - reflexivity.
  - reflexivity.
  - left; reflexivity.
  - reflexivity.
Defined.
